(** * Symmetry desktop front end: a shallow embedding of its orchestration code

    The development follows the TypeScript sources of the Electron/React
    front end:

    - [Uri]         the ECMAScript builtin [encodeURIComponent], on byte strings;
    - [Services]    [fetchArticle], [translateArticle], [compareArticles];
    - [Config]      [initializeConstants] (constants/AppConstants);
    - [Axios]       [getAxiosInstance] (services/axios);
    - [MainProcess] the [start-backend] and [get-app-config] IPC handlers of the
                    Electron main file;
    - [Comparison]  the [ComparisonSection] component;
    - [Translation] [handleCompare] of the [TranslationSection] component.

    JavaScript strings are modelled by their UTF-8 byte sequence ([string]),
    promises by the value they settle with, and exceptions by the [Completion]
    monad below. *)

From Stdlib Require Import ZArith QArith Ascii String List Bool Lia.
From Stdlib Require Import DecimalString.
From stdpp Require Import base option list strings gmap.

Local Open Scope Z_scope.

(** ** Completions: a value or a thrown exception *)

Inductive Completion (E A : Type) : Type :=
| Normal (a : A)
| Throw (e : E).
Arguments Normal {E A} a.
Arguments Throw {E A} e.

Definition cbind {E A B} (c : Completion E A) (k : A -> Completion E B)
  : Completion E B :=
  match c with
  | Normal a => k a
  | Throw e => Throw e
  end.

(** [try { body } catch (e) { handler e }] *)
Definition try_catch {E A} (body : Completion E A) (handler : E -> Completion E A)
  : Completion E A :=
  match body with
  | Normal a => Normal a
  | Throw e => handler e
  end.

Notation "'let*' x ':=' c 'in' k" := (cbind c (fun x => k))
  (at level 10, x name, c at level 100, k at level 200).

(** [`${n}`] for an integer-valued number below 1e21 in magnitude. *)
Definition Number_toString (n : Z) : string :=
  NilZero.string_of_int (Z.to_int n).

(** ** [encodeURIComponent] *)

Module Uri.

Definition in_range (lo hi n : N) : bool := ((lo <=? n) && (n <=? hi))%N.

(** uriUnescaped = uriAlpha, DecimalDigit and the marks [- _ . ! ~ * ' ( )]. *)
Definition is_unreserved (c : ascii) : bool :=
  let n := N_of_ascii c in
  in_range 65 90 n || in_range 97 122 n || in_range 48 57 n
  || (n =? 45)%N || (n =? 95)%N || (n =? 46)%N || (n =? 33)%N
  || (n =? 126)%N || (n =? 42)%N || (n =? 39)%N || (n =? 40)%N || (n =? 41)%N.

Definition hex_digit (n : N) : ascii :=
  if (n <? 10)%N then ascii_of_N (48 + n) else ascii_of_N (55 + n).

Definition percent_encode (c : ascii) : string :=
  let n := N_of_ascii c in
  String "%" (String (hex_digit (n / 16)) (String (hex_digit (n mod 16)) EmptyString)).

Fixpoint encodeURIComponent (s : string) : string :=
  match s with
  | EmptyString => EmptyString
  | String c rest =>
      if is_unreserved c then String c (encodeURIComponent rest)
      else percent_encode c +:+ encodeURIComponent rest
  end.

(** The inverse builtin, used to state that a value was encoded once. *)
Definition hex_value (c : ascii) : option N :=
  let n := N_of_ascii c in
  if in_range 48 57 n then Some (n - 48)%N
  else if in_range 65 70 n then Some (n - 55)%N
  else if in_range 97 102 n then Some (n - 87)%N
  else None.

Fixpoint decodeURIComponent (s : string) : option string :=
  match s with
  | EmptyString => Some EmptyString
  | String c rest =>
      if Ascii.eqb c "%" then
        match rest with
        | String h (String l rest') =>
            match hex_value h, hex_value l with
            | Some a, Some b =>
                match decodeURIComponent rest' with
                | Some r => Some (String (ascii_of_N (16 * a + b)) r)
                | None => None
                end
            | _, _ => None
            end
        | _ => None
        end
      else
        match decodeURIComponent rest with
        | Some r => Some (String c r)
        | None => None
        end
  end.

(** The characters of a string, for [Forall]-style statements. *)
Fixpoint chars (s : string) : list ascii :=
  match s with
  | EmptyString => []
  | String c rest => c :: chars rest
  end.

Definition is_hex (c : ascii) : bool :=
  match hex_value c with Some _ => true | None => false end.

(** What may occur in an encoded component: unreserved characters and the
    escape triples [%XX]. *)
Definition is_encoded_char (c : ascii) : bool :=
  is_unreserved c || Ascii.eqb c "%" || is_hex c.

(** The number of occurrences of a character. *)
Fixpoint count_char (c : ascii) (s : string) : nat :=
  match s with
  | EmptyString => O
  | String a rest => (if Ascii.eqb a c then 1 else 0)%nat + count_char c rest
  end.

End Uri.

(** ** Configuration (constants/AppConstants) *)

Module Config.

(** The JSON file, read through [interface AppConfig]: every key optional.
    Ports and the timeout are integer-valued numbers, the threshold a
    rational. *)
Module File.
Record AppConfig := {
  BACKEND_BASE_URL : option string;
  BACKEND_PORT : option Z;
  FRONTEND_PORT : option Z;
  OLLAMA_BASE_URL : option string;
  DEFAULT_TIMEOUT : option Z;
  SIMILARITY_THRESHOLD : option Q
}.
End File.

(** The constants object built by [initializeConstants]. *)
Record AppConstants := {
  BACKEND_BASE_URL : string;
  BACKEND_PORT : Z;
  FRONTEND_PORT : Z;
  OLLAMA_BASE_URL : string;
  DEFAULT_TIMEOUT : Z;
  SIMILARITY_THRESHOLD : Q
}.

(** JavaScript truthiness of the value types of the interface. *)
Definition truthy_string (s : string) : bool := negb (String.eqb s "").
Definition truthy_number (n : Z) : bool := negb (n =? 0).
Definition truthy_rational (q : Q) : bool := negb (Qeq_bool q 0).

(** [x || d], where a missing key reads as [undefined]. *)
Definition or_default {A} (truthy : A -> bool) (x : option A) (d : A) : A :=
  match x with
  | Some v => if truthy v then v else d
  | None => d
  end.

(** What [JSON.parse] returned: [null], or a value whose properties can be
    read (an object; a number, string, boolean or array reads as an object
    without the keys). *)
Inductive ParsedJSON :=
| JNull
| JObject (configData : File.AppConfig).

(** The outcome of [fs.readFile] followed by [JSON.parse]. *)
Inductive ConfigFile :=
| Unreadable (message : string)
| Malformed (message : string)
| Parsed (json : ParsedJSON).

Definition read_and_parse (f : ConfigFile) : Completion string ParsedJSON :=
  match f with
  | Unreadable m => Throw m
  | Malformed m => Throw m
  | Parsed j => Normal j
  end.

Definition build_constants (configData : File.AppConfig) : AppConstants :=
  {| BACKEND_BASE_URL :=
       or_default truthy_string (File.BACKEND_BASE_URL configData)
         ("http://127.0.0.1:" +:+
            Number_toString (or_default truthy_number (File.BACKEND_PORT configData) 8000));
     BACKEND_PORT := or_default truthy_number (File.BACKEND_PORT configData) 8000;
     FRONTEND_PORT := or_default truthy_number (File.FRONTEND_PORT configData) 5173;
     OLLAMA_BASE_URL :=
       or_default truthy_string (File.OLLAMA_BASE_URL configData) "http://localhost:11434";
     DEFAULT_TIMEOUT := or_default truthy_number (File.DEFAULT_TIMEOUT configData) 30000;
     SIMILARITY_THRESHOLD :=
       or_default truthy_rational (File.SIMILARITY_THRESHOLD configData) 0.65%Q |}.

Definition initializeConstants (f : ConfigFile) : Completion string AppConstants :=
  try_catch
    (let* json := read_and_parse f in
     match json with
     | JNull => Throw "Cannot read properties of null (reading 'BACKEND_BASE_URL')"
     | JObject configData => Normal (build_constants configData)
     end)
    (fun error => Throw ("Failed to initialize AppConstants: " +:+ error)).

(** The file [{}]. *)
Definition empty_config : File.AppConfig :=
  {| File.BACKEND_BASE_URL := None; File.BACKEND_PORT := None;
     File.FRONTEND_PORT := None; File.OLLAMA_BASE_URL := None;
     File.DEFAULT_TIMEOUT := None; File.SIMILARITY_THRESHOLD := None |}.

(** A file that sets the base URL to the empty text and the backend port
    and the threshold to 0. *)
Definition falsy_config : File.AppConfig :=
  {| File.BACKEND_BASE_URL := Some ""; File.BACKEND_PORT := Some 0;
     File.FRONTEND_PORT := None; File.OLLAMA_BASE_URL := None;
     File.DEFAULT_TIMEOUT := None; File.SIMILARITY_THRESHOLD := Some 0%Q |}.

(** The file that sets only the backend port, to 9000. *)
Definition port_only_config : File.AppConfig :=
  {| File.BACKEND_BASE_URL := None; File.BACKEND_PORT := Some 9000;
     File.FRONTEND_PORT := None; File.OLLAMA_BASE_URL := None;
     File.DEFAULT_TIMEOUT := None; File.SIMILARITY_THRESHOLD := None |}.

(** The file that sets every key to a falsy value: the two URLs to the empty
    text, the numbers to 0. *)
Definition all_falsy_config : File.AppConfig :=
  {| File.BACKEND_BASE_URL := Some ""; File.BACKEND_PORT := Some 0;
     File.FRONTEND_PORT := Some 0; File.OLLAMA_BASE_URL := Some "";
     File.DEFAULT_TIMEOUT := Some 0; File.SIMILARITY_THRESHOLD := Some 0%Q |}.

End Config.

(** ** The privileged process (the Electron main file) *)

Module MainProcess.

(** [let AppConstants: any], [undefined] until [createWindow] assigns it. *)
Record State := { AppConstants : option Config.AppConstants }.

Definition initial : State := {| AppConstants := None |}.

(** [grabConfig]: await [appConstantsPromise], rethrow with a prefix. *)
Definition grabConfig (f : Config.ConfigFile) : Completion string Config.AppConstants :=
  try_catch (Config.initializeConstants f)
    (fun error => Throw ("Failed to load the configuration file: " +:+ error)).

(** The configuration part of [createWindow]: the assignment happens inside
    a [try] whose [catch] only logs. *)
Definition createWindow (f : Config.ConfigFile) (st : State) : State :=
  match grabConfig f with
  | Normal c => {| AppConstants := Some c |}
  | Throw _ => st
  end.

(** [ipcMain.handle('get-app-config', ...)] *)
Definition get_app_config (st : State) : option Config.AppConstants :=
  AppConstants st.

(** *** [ipcMain.handle('start-backend', ...)] *)

(** What a child process reports to its completion callback. *)
Record ChildResult := {
  child_error : option string;   (* [error.message], when [error] is set *)
  stdout : string;
  stderr : string
}.

(** The operating system as the handler meets it: whether [exec] or
    [execFile] throw synchronously, and how the two children end. *)
Record OS := {
  exec_throws : option string;
  execFile_throws : option string;
  pkill_result : ChildResult;
  backend_result : ChildResult
}.

(** [{ success, error? }] *)
Record Reply := { success : bool; error : option string }.

(** The completion callback given to [execFile]; its value is what the
    arrow function returns ([None] for [undefined]). *)
Definition execFile_callback (r : ChildResult) : option Reply :=
  match child_error r with
  | Some message => Some {| success := false; error := Some message |}
  | None => None
  end.

Definition exec_call (os : OS) : Completion string unit :=
  match exec_throws os with
  | Some e => Throw e
  | None => Normal tt
  end.

Definition execFile_call (os : OS) : Completion string unit :=
  match execFile_throws os with
  | Some e => Throw e
  | None => Normal tt
  end.

(** The handler body: both children are started, then [{ success: true }]
    is returned; a synchronous exception is turned into a failure reply. *)
Definition start_backend_handler (os : OS) : Completion string Reply :=
  try_catch
    (let* _ := exec_call os in
     let* _ := execFile_call os in
     Normal {| success := true; error := None |})
    (fun e => Normal {| success := false; error := Some e |}).

(** One invocation, followed to the end of the child: the reply the
    renderer receives, and the value the completion callback returned to
    the event loop (which drops it). The callback only exists if
    [execFile] was reached and did not throw. *)
Record Invocation := {
  reply : Completion string Reply;
  callback_returned : option Reply
}.

Definition invoke_start_backend (os : OS) : Invocation :=
  {| reply := start_backend_handler os;
     callback_returned :=
       match exec_call os, execFile_call os with
       | Normal _, Normal _ => execFile_callback (backend_result os)
       | _, _ => None
       end |}.

(** The backend fails to start ([python3] is missing). *)
Definition failing_os : OS :=
  {| exec_throws := None; execFile_throws := None;
     pkill_result := {| child_error := None; stdout := ""; stderr := "" |};
     backend_result := {| child_error := Some "spawn python3 ENOENT";
                          stdout := ""; stderr := "" |} |}.

(** *** The backend launch of [createWindow] *)

(** The child processes the privileged process starts. *)
Inductive Command :=
| KillPort8000                       (* [lsof -ti:8000 | xargs kill -9 || true] *)
| PkillBackend                       (* [pkill -f "python.*main.py" || true] *)
| LaunchBackend (args : list string) (cwd : string).

Definition uvicorn_args : list string :=
  ["-m"; "uvicorn"; "app.main:app"; "--host"; "127.0.0.1"; "--port"; "8000"].

(** The callback of the [pkill] command: its [err] is logged, then the
    backend is launched with [execFile]. *)
Definition after_pkill (os : OS) (backendDir : string) (r : ChildResult) : list Command :=
  match execFile_call os with
  | Normal _ => [LaunchBackend uvicorn_args backendDir]
  | Throw _ => []
  end.

(** The callback of the port-kill command: its [err] is logged, then
    [pkill] is started. *)
Definition after_kill_port (os : OS) (backendDir : string) (r : ChildResult)
  : list Command :=
  match exec_call os with
  | Normal _ => PkillBackend :: after_pkill os backendDir (pkill_result os)
  | Throw _ => []
  end.

(** The commands [createWindow] starts, in order: nothing when
    [grabConfig] throws (the [catch] only logs), otherwise the chain of the
    three commands, each started from the callback of the one before.
    [kill_port_result] is how the port-kill command ends. *)
Definition createWindow_commands (f : Config.ConfigFile) (os : OS)
    (backendDir : string) (kill_port_result : ChildResult) : list Command :=
  match grabConfig f with
  | Normal _ =>
      match exec_call os with
      | Normal _ => KillPort8000 :: after_kill_port os backendDir kill_port_result
      | Throw _ => []
      end
  | Throw _ => []
  end.

End MainProcess.

(** ** The HTTP client (services/axios.ts) *)

Module Axios.

Record AxiosInstance := { baseURL : string; timeout : Z }.

Definition create (baseURL : string) (timeout : Z) : AxiosInstance :=
  {| baseURL := baseURL; timeout := timeout |}.

(** [window.electronAPI.getAppConfig()] as the renderer meets it. *)
Inductive Bridge :=
| NoBridge                       (* [window.electronAPI] is undefined *)
| InvokeRejects (message : string)
| InvokeResolves (value : option Config.AppConstants).

Definition getAppConfig (b : Bridge) : Completion string (option Config.AppConstants) :=
  match b with
  | NoBridge => Throw "Cannot read properties of undefined (reading 'getAppConfig')"
  | InvokeRejects m => Throw m
  | InvokeResolves v => Normal v
  end.

(** The bridge in front of a running privileged process. *)
Definition bridge_of (st : MainProcess.State) : Bridge :=
  InvokeResolves (MainProcess.get_app_config st).

Definition default_baseURL : string := "http://127.0.0.1:8000".

Definition getAxiosInstance (b : Bridge) : Completion string AxiosInstance :=
  try_catch
    (let* AppConstants := getAppConfig b in
     match AppConstants with
     | None => Throw "AppConstants is undefined"
     | Some c =>
         if negb (Config.truthy_string (Config.BACKEND_BASE_URL c))
         then Throw "BACKEND_BASE_URL is not defined in AppConstants"
         else Normal (create (Config.BACKEND_BASE_URL c) 30000)
     end)
    (fun error => Normal (create default_baseURL 30000)).

(** The configuration could not be obtained: the bridge is unreachable, the
    call is rejected, the privileged process has no constants because
    loading them failed, or the constants carry no base URL. *)
Definition config_unavailable (b : Bridge) : bool :=
  match b with
  | NoBridge => true
  | InvokeRejects _ => true
  | InvokeResolves None => true
  | InvokeResolves (Some c) => negb (Config.truthy_string (Config.BACKEND_BASE_URL c))
  end.

(** An instance together with the interceptors installed on it. The
    module-level default instance gets one request and one response
    interceptor, which log and pass their argument on; an instance made by
    [axios.create] has none. *)
Record ModuleInstance := {
  defaults : AxiosInstance;
  request_interceptors : nat;
  response_interceptors : nat
}.

(** A fresh [axios.create(config)] instance. *)
Definition created (c : AxiosInstance) : ModuleInstance :=
  {| defaults := c; request_interceptors := 0; response_interceptors := 0 |}.

(** The module-level [axiosInstance], after the two [interceptors.*.use]
    calls of the module. *)
Definition axiosInstance : ModuleInstance :=
  {| defaults := create "http://127.0.0.1:8000" 30000;
     request_interceptors := 1; response_interceptors := 1 |}.

(** [updateAxiosInstance]: [defaults.baseURL] of the given instance is
    replaced by the configured one; reading [BACKEND_BASE_URL] of [undefined]
    throws, and the [catch] only logs. *)
Definition updateAxiosInstance (b : Bridge) (inst : ModuleInstance) : ModuleInstance :=
  match getAppConfig b with
  | Normal (Some c) =>
      {| defaults := {| baseURL := Config.BACKEND_BASE_URL c;
                        timeout := timeout (defaults inst) |};
         request_interceptors := request_interceptors inst;
         response_interceptors := response_interceptors inst |}
  | Normal None => inst
  | Throw _ => inst
  end.

End Axios.

(** ** The HTTP services (services/fetchArticle.ts, translateArticle.ts,
       compareArticles.ts) *)

Module Services.
Import Uri.

(** [paramsArray.join('&')] *)
Fixpoint join (sep : string) (parts : list string) : string :=
  match parts with
  | [] => EmptyString
  | [p] => p
  | p :: rest => p +:+ sep +:+ join sep rest
  end.

(** The [params] object, as [Object.entries] lists it (insertion order). *)
Definition Params := list (string * string).

(** fetchArticle: [params: { query: sourceArticleUrl }]. The serializer
    destructures [query] and ignores any other entry. *)
Definition fetchArticle_params (sourceArticleUrl : string) : Params :=
  [("query", sourceArticleUrl)].

Fixpoint get_param (key : string) (params : Params) : option string :=
  match params with
  | [] => None
  | (k, v) :: rest => if String.eqb k key then Some v else get_param key rest
  end.

(** [`query=${encodeURIComponent(query)}`]; [encodeURIComponent(undefined)]
    is the text [undefined]. *)
Definition fetchArticle_paramsSerializer (params : Params) : string :=
  let query := default "undefined" (get_param "query" params) in
  "query=" +:+ encodeURIComponent query.

(** translateArticle: [params: { title: article_name, language: target_language }]. *)
Definition translateArticle_params (article_name target_language : string) : Params :=
  [("title", article_name); ("language", target_language)].

Definition translateArticle_entry (kv : string * string) : string :=
  let '(key, value) := kv in
  if String.eqb key "title" then key +:+ "=" +:+ value
  else key +:+ "=" +:+ encodeURIComponent value.

Definition translateArticle_paramsSerializer (params : Params) : string :=
  join "&" (map translateArticle_entry params).

Inductive Method := GET | POST.

(** The body of the compare request. *)
Record CompareBody := {
  article_text_blob_1 : string;
  article_text_blob_2 : string;
  article_text_blob_1_language : string;
  article_text_blob_2_language : string;
  model_name : string
}.

(** What a service hands to the transport: the client it was issued on,
    method, path, the serialized query, the body, and the [signal] entry of
    the request config (the id of an [AbortController], when one is given). *)
Record Request := {
  client : Axios.AxiosInstance;
  method : Method;
  path : string;
  query : option string;
  body : option CompareBody;
  signal : option nat
}.

(** [axiosInstance.get(path, { params, paramsSerializer })] *)
Definition get (axiosInstance : Axios.AxiosInstance) (path : string)
    (params : Params) (paramsSerializer : Params -> string) : Request :=
  {| client := axiosInstance; method := GET; path := path;
     query := Some (paramsSerializer params); body := None; signal := None |}.

(** [axiosInstance.post(path, data)]: no request config is passed. *)
Definition post (axiosInstance : Axios.AxiosInstance) (path : string)
    (data : CompareBody) : Request :=
  {| client := axiosInstance; method := POST; path := path;
     query := None; body := Some data; signal := None |}.

Definition fetchArticle (b : Axios.Bridge) (sourceArticleUrl : string)
  : Completion string Request :=
  try_catch
    (let* axiosInstance := Axios.getAxiosInstance b in
     Normal (get axiosInstance "/symmetry/v1/wiki/articles"
               (fetchArticle_params sourceArticleUrl) fetchArticle_paramsSerializer))
    (fun error => Throw error).

Definition translateArticle (b : Axios.Bridge) (article_name target_language : string)
  : Completion string Request :=
  try_catch
    (let* axiosInstance := Axios.getAxiosInstance b in
     Normal (get axiosInstance "/symmetry/v1/wiki_translate/source_article"
               (translateArticle_params article_name target_language)
               translateArticle_paramsSerializer))
    (fun error => Throw error).

Definition compareArticles (b : Axios.Bridge) (textA textB languageA languageB : string)
  : Completion string Request :=
  try_catch
    (let* axiosInstance := Axios.getAxiosInstance b in
     Normal (post axiosInstance "/symmetry/v1/articles/compare"
               {| article_text_blob_1 := textA;
                  article_text_blob_2 := textB;
                  article_text_blob_1_language := languageA;
                  article_text_blob_2_language := languageB;
                  model_name := "default" |}))
    (fun error => Throw error).

(** The query string of a service call, once it has produced its request. *)
Definition query_of (r : Completion string Request) : option string :=
  match r with
  | Normal req => query req
  | Throw _ => None
  end.

End Services.

(** ** The browser: URL objects, session storage, DOM clicks *)

(** The builtins the views call and this development does not define. *)
Class Platform := {
  URL : Type;
  URL_new : string -> option URL;          (* [new URL(s)]; [None] is a TypeError *)
  URL_set_hostname : URL -> string -> URL; (* [u.hostname = h] *)
  URL_toString : URL -> string;
  toLowerCase : string -> string
}.

(** The value handed from the translation view to the comparison view. It is
    stored as [JSON.stringify] text and read back with [JSON.parse]; the model
    keeps the object itself. *)
Module Handoff.
Record t := {
  sourceContent : string;
  translatedContent : string;
  sourceUrl : string;
  targetLanguage : string
}.
End Handoff.

Module Browser.

(** The effects on the browser, in program order. *)
Inductive Effect :=
| Click_AI_COMPARISON            (* [comparisonButton.click()] *)
| SetItem (key : string)
| GetItem (key : string)
| RemoveItem (key : string).

Record t := {
  sessionStorage : gmap string Handoff.t;
  trace : list Effect
}.

Definition emit (e : Effect) (w : t) : t :=
  {| sessionStorage := sessionStorage w; trace := trace w ++ [e] |}.

Definition getItem (key : string) (w : t) : option Handoff.t * t :=
  (sessionStorage w !! key, emit (GetItem key) w).

Definition setItem (key : string) (v : Handoff.t) (w : t) : t :=
  emit (SetItem key)
    {| sessionStorage := <[key := v]> (sessionStorage w); trace := trace w |}.

Definition removeItem (key : string) (w : t) : t :=
  emit (RemoveItem key)
    {| sessionStorage := delete key (sessionStorage w); trace := trace w |}.

End Browser.

(** ** The comparison view (components/ComparisonSection.tsx) *)

Module Comparison.

Record ComparisonResult := {
  left_article_array : list string;
  right_article_array : list string;
  left_article_missing_info_index : list Z;
  right_article_extra_info_index : list Z
}.

(** The [useState] values of the component and the two form fields. *)
Record State := {
  isLoading : bool;
  comparisonResult : option ComparisonResult;
  sourceText : string;
  targetText : string;
  elapsedTime : Z;
  isRunning : bool;
  sourceLanguage : string;
  targetLanguage : string;
  targetUrl : string;
  isTargetTextReadOnly : bool;
  isTargetLanguageReadOnly : bool;
  form_sourceText : string;
  form_targetText : string
}.

Definition initial_state : State :=
  {| isLoading := false; comparisonResult := None; sourceText := "";
     targetText := ""; elapsedTime := 0; isRunning := false;
     sourceLanguage := "en"; targetLanguage := "en"; targetUrl := "";
     isTargetTextReadOnly := false; isTargetLanguageReadOnly := false;
     form_sourceText := ""; form_targetText := "" |}.

Definition setIsLoading (v : bool) (st : State) : State :=
  {| isLoading := v; comparisonResult := comparisonResult st;
     sourceText := sourceText st; targetText := targetText st;
     elapsedTime := elapsedTime st; isRunning := isRunning st;
     sourceLanguage := sourceLanguage st; targetLanguage := targetLanguage st;
     targetUrl := targetUrl st; isTargetTextReadOnly := isTargetTextReadOnly st;
     isTargetLanguageReadOnly := isTargetLanguageReadOnly st;
     form_sourceText := form_sourceText st; form_targetText := form_targetText st |}.

Definition setComparisonResult (v : option ComparisonResult) (st : State) : State :=
  {| isLoading := isLoading st; comparisonResult := v; sourceText := sourceText st;
     targetText := targetText st; elapsedTime := elapsedTime st;
     isRunning := isRunning st; sourceLanguage := sourceLanguage st;
     targetLanguage := targetLanguage st; targetUrl := targetUrl st;
     isTargetTextReadOnly := isTargetTextReadOnly st;
     isTargetLanguageReadOnly := isTargetLanguageReadOnly st;
     form_sourceText := form_sourceText st; form_targetText := form_targetText st |}.

Definition setSourceText (v : string) (st : State) : State :=
  {| isLoading := isLoading st; comparisonResult := comparisonResult st;
     sourceText := v; targetText := targetText st; elapsedTime := elapsedTime st;
     isRunning := isRunning st; sourceLanguage := sourceLanguage st;
     targetLanguage := targetLanguage st; targetUrl := targetUrl st;
     isTargetTextReadOnly := isTargetTextReadOnly st;
     isTargetLanguageReadOnly := isTargetLanguageReadOnly st;
     form_sourceText := form_sourceText st; form_targetText := form_targetText st |}.

Definition setTargetText (v : string) (st : State) : State :=
  {| isLoading := isLoading st; comparisonResult := comparisonResult st;
     sourceText := sourceText st; targetText := v; elapsedTime := elapsedTime st;
     isRunning := isRunning st; sourceLanguage := sourceLanguage st;
     targetLanguage := targetLanguage st; targetUrl := targetUrl st;
     isTargetTextReadOnly := isTargetTextReadOnly st;
     isTargetLanguageReadOnly := isTargetLanguageReadOnly st;
     form_sourceText := form_sourceText st; form_targetText := form_targetText st |}.

Definition setElapsedTime (v : Z) (st : State) : State :=
  {| isLoading := isLoading st; comparisonResult := comparisonResult st;
     sourceText := sourceText st; targetText := targetText st; elapsedTime := v;
     isRunning := isRunning st; sourceLanguage := sourceLanguage st;
     targetLanguage := targetLanguage st; targetUrl := targetUrl st;
     isTargetTextReadOnly := isTargetTextReadOnly st;
     isTargetLanguageReadOnly := isTargetLanguageReadOnly st;
     form_sourceText := form_sourceText st; form_targetText := form_targetText st |}.

Definition setIsRunning (v : bool) (st : State) : State :=
  {| isLoading := isLoading st; comparisonResult := comparisonResult st;
     sourceText := sourceText st; targetText := targetText st;
     elapsedTime := elapsedTime st; isRunning := v;
     sourceLanguage := sourceLanguage st; targetLanguage := targetLanguage st;
     targetUrl := targetUrl st; isTargetTextReadOnly := isTargetTextReadOnly st;
     isTargetLanguageReadOnly := isTargetLanguageReadOnly st;
     form_sourceText := form_sourceText st; form_targetText := form_targetText st |}.

Definition setSourceLanguage (v : string) (st : State) : State :=
  {| isLoading := isLoading st; comparisonResult := comparisonResult st;
     sourceText := sourceText st; targetText := targetText st;
     elapsedTime := elapsedTime st; isRunning := isRunning st; sourceLanguage := v;
     targetLanguage := targetLanguage st; targetUrl := targetUrl st;
     isTargetTextReadOnly := isTargetTextReadOnly st;
     isTargetLanguageReadOnly := isTargetLanguageReadOnly st;
     form_sourceText := form_sourceText st; form_targetText := form_targetText st |}.

Definition setTargetLanguage (v : string) (st : State) : State :=
  {| isLoading := isLoading st; comparisonResult := comparisonResult st;
     sourceText := sourceText st; targetText := targetText st;
     elapsedTime := elapsedTime st; isRunning := isRunning st;
     sourceLanguage := sourceLanguage st; targetLanguage := v;
     targetUrl := targetUrl st; isTargetTextReadOnly := isTargetTextReadOnly st;
     isTargetLanguageReadOnly := isTargetLanguageReadOnly st;
     form_sourceText := form_sourceText st; form_targetText := form_targetText st |}.

Definition setTargetUrl (v : string) (st : State) : State :=
  {| isLoading := isLoading st; comparisonResult := comparisonResult st;
     sourceText := sourceText st; targetText := targetText st;
     elapsedTime := elapsedTime st; isRunning := isRunning st;
     sourceLanguage := sourceLanguage st; targetLanguage := targetLanguage st;
     targetUrl := v; isTargetTextReadOnly := isTargetTextReadOnly st;
     isTargetLanguageReadOnly := isTargetLanguageReadOnly st;
     form_sourceText := form_sourceText st; form_targetText := form_targetText st |}.

Definition setIsTargetTextReadOnly (v : bool) (st : State) : State :=
  {| isLoading := isLoading st; comparisonResult := comparisonResult st;
     sourceText := sourceText st; targetText := targetText st;
     elapsedTime := elapsedTime st; isRunning := isRunning st;
     sourceLanguage := sourceLanguage st; targetLanguage := targetLanguage st;
     targetUrl := targetUrl st; isTargetTextReadOnly := v;
     isTargetLanguageReadOnly := isTargetLanguageReadOnly st;
     form_sourceText := form_sourceText st; form_targetText := form_targetText st |}.

Definition setIsTargetLanguageReadOnly (v : bool) (st : State) : State :=
  {| isLoading := isLoading st; comparisonResult := comparisonResult st;
     sourceText := sourceText st; targetText := targetText st;
     elapsedTime := elapsedTime st; isRunning := isRunning st;
     sourceLanguage := sourceLanguage st; targetLanguage := targetLanguage st;
     targetUrl := targetUrl st; isTargetTextReadOnly := isTargetTextReadOnly st;
     isTargetLanguageReadOnly := v; form_sourceText := form_sourceText st;
     form_targetText := form_targetText st |}.

Definition form_setValue_sourceText (v : string) (st : State) : State :=
  {| isLoading := isLoading st; comparisonResult := comparisonResult st;
     sourceText := sourceText st; targetText := targetText st;
     elapsedTime := elapsedTime st; isRunning := isRunning st;
     sourceLanguage := sourceLanguage st; targetLanguage := targetLanguage st;
     targetUrl := targetUrl st; isTargetTextReadOnly := isTargetTextReadOnly st;
     isTargetLanguageReadOnly := isTargetLanguageReadOnly st; form_sourceText := v;
     form_targetText := form_targetText st |}.

Definition form_setValue_targetText (v : string) (st : State) : State :=
  {| isLoading := isLoading st; comparisonResult := comparisonResult st;
     sourceText := sourceText st; targetText := targetText st;
     elapsedTime := elapsedTime st; isRunning := isRunning st;
     sourceLanguage := sourceLanguage st; targetLanguage := targetLanguage st;
     targetUrl := targetUrl st; isTargetTextReadOnly := isTargetTextReadOnly st;
     isTargetLanguageReadOnly := isTargetLanguageReadOnly st;
     form_sourceText := form_sourceText st; form_targetText := v |}.

(** *** Renders and closures

    The component body declares [let abortController = null], so every
    render has a variable of its own, shared by the [onSubmit] and
    [onStopComparison] closures of that render, which also see the state
    values of that render. *)
Record Render := {
  captured : State;
  abortController : option nat
}.

(** A mounted component: the current state, its renders (latest last), the
    [AbortController] objects created so far (their [aborted] flag) and the
    messages shown with [alert]. *)
Record Instance := {
  state : State;
  renders : list Render;
  controllers : list bool;
  alerts : list string
}.

Definition mounted (st : State) : Instance :=
  {| state := st;
     renders := [{| captured := st; abortController := None |}];
     controllers := []; alerts := [] |}.

Definition current_render (i : Instance) : nat := pred (length (renders i)).

Definition set_state (f : State -> State) (i : Instance) : Instance :=
  {| state := f (state i); renders := renders i;
     controllers := controllers i; alerts := alerts i |}.

(** A state change is followed by a new render of the component body. *)
Definition rerender (i : Instance) : Instance :=
  {| state := state i;
     renders := renders i ++ [{| captured := state i; abortController := None |}];
     controllers := controllers i; alerts := alerts i |}.

(** Assignment to the [abortController] variable of render [r]. *)
Definition assign_abortController (r : nat) (v : option nat) (i : Instance) : Instance :=
  {| state := state i;
     renders := alter (fun rd => {| captured := captured rd; abortController := v |}) r
                  (renders i);
     controllers := controllers i; alerts := alerts i |}.

(** [new AbortController()] *)
Definition new_AbortController (i : Instance) : nat * Instance :=
  (length (controllers i),
   {| state := state i; renders := renders i;
      controllers := controllers i ++ [false]; alerts := alerts i |}).

(** [controller.abort()] *)
Definition abort (id : nat) (i : Instance) : Instance :=
  {| state := state i; renders := renders i;
     controllers := <[id := true]> (controllers i); alerts := alerts i |}.

Definition alert (message : string) (i : Instance) : Instance :=
  {| state := state i; renders := renders i;
     controllers := controllers i; alerts := alerts i ++ [message] |}.

(** *** The transport *)

Record ErrorResponse := {
  status : Z;
  detail : option string      (* [response.data?.detail] *)
}.

Record AxiosError := {
  code : option string;
  response : option ErrorResponse;
  message : string
}.

(** How the request promise settles. *)
Inductive Settled :=
| Fulfilled (comparisons : list ComparisonResult)
| Rejected (e : AxiosError).

Definition CanceledError : AxiosError :=
  {| code := Some "ERR_CANCELED"; response := None; message := "canceled" |}.

(** axios rejects a request with [CanceledError] when the signal of its
    config is aborted, and otherwise settles it with what the network
    gave. *)
Definition transport (controllers : list bool) (req : Services.Request) (net : Settled)
  : Settled :=
  match Services.signal req with
  | Some id =>
      match controllers !! id with
      | Some true => Rejected CanceledError
      | _ => net
      end
  | None => net
  end.

(** *** [onSubmit] and [onStopComparison] *)

Record FormData := { data_sourceText : string; data_targetText : string }.

(** A submission waiting at [await compareArticles(...)]. *)
Record Pending := {
  owner : nat;                                   (* the render of the closure *)
  data : FormData;
  request : Completion string Services.Request;
  owner_elapsedTime : Z
}.

Definition onSubmit_begin (b : Axios.Bridge) (r : nat) (d : FormData) (i : Instance)
  : option (Instance * Pending) :=
  rd ← renders i !! r;
  let '(id, i) := new_AbortController i in
  let i := assign_abortController r (Some id) i in
  let i := set_state (setIsLoading true) i in
  let i := set_state (setIsRunning true) i in
  let i := set_state (setComparisonResult None) i in
  let req := Services.compareArticles b (data_sourceText d) (data_targetText d)
               (sourceLanguage (captured rd)) (targetLanguage (captured rd)) in
  Some (rerender i,
        {| owner := r; data := d; request := req;
           owner_elapsedTime := elapsedTime (captured rd) |}).

Definition onStopComparison (r : nat) (i : Instance) : Instance :=
  match renders i !! r with
  | Some rd =>
      match abortController rd with
      | Some id => abort id i
      | None => i
      end
  | None => i
  end.

Definition or_text (x : option string) (d : string) : string :=
  Config.or_default Config.truthy_string x d.

Definition code_is (e : AxiosError) (c : string) : bool :=
  match code e with
  | Some c' => String.eqb c' c
  | None => false
  end.

Definition status_is (e : AxiosError) (n : Z) : bool :=
  match response e with
  | Some r => status r =? n
  | None => false
  end.

Definition response_detail (e : AxiosError) : option string :=
  match response e with
  | Some r => detail r
  | None => None
  end.

Definition stopped_by_user : string := "Comparison was stopped by the user.".

(** The message built in the [catch] block. *)
Definition errorMessage (elapsed : Z) (e : AxiosError) : string :=
  if code_is e "ECONNABORTED" then
    "Comparison request timed out after " +:+ Number_toString elapsed +:+
    "s. The comparison is taking longer than expected. Please try again or reduce the amount of text being compared."
  else if code_is e "ERR_CANCELED" then stopped_by_user
  else if status_is e 400 then
    "Bad Request: " +:+ or_text (response_detail e) "Invalid request parameters."
  else if status_is e 404 then
    "Comparison endpoint not found (404). " +:+
    or_text (response_detail e) "Please check that the backend server is running."
  else if status_is e 422 then
    "Validation Error: " +:+ or_text (response_detail e) "The request contains invalid data."
  else
    match response e with
    | Some r =>
        if 500 <=? status r then
          "Server error (" +:+ Number_toString (status r) +:+ "): " +:+
          or_text (detail r) "The backend encountered an error. Check backend logs for details."
        else "Comparison failed: " +:+ message e
    | None =>
        "Unable to connect to the backend server. Please ensure the backend is running at the configured URL. ("
        +:+ message e +:+ ")"
    end.

(** How the awaited promise settles: [compareArticles] may itself throw;
    otherwise the transport decides. *)
Definition settle (p : Pending) (net : Settled) (i : Instance) : Settled :=
  match request p with
  | Normal req => transport (controllers i) req net
  | Throw e => Rejected {| code := None; response := None; message := e |}
  end.

(** The timer effect, run when [isRunning] has changed: it starts the
    interval, or resets the counter when idle. *)
Definition timer_effect (i : Instance) : Instance :=
  if isRunning (state i) then i
  else if elapsedTime (state i) =? 0 then i
  else rerender (set_state (setElapsedTime 0) i).

(** One tick of the interval. *)
Definition tick (i : Instance) : Instance :=
  if isRunning (state i)
  then rerender (set_state (fun st => setElapsedTime (elapsedTime st + 1) st) i)
  else i.

(** The rest of [onSubmit], from the settlement on: the [try] body, the
    [catch] block and [finally]. *)
Definition onSubmit_settle (p : Pending) (net : Settled) (i : Instance) : Instance :=
  let i :=
    match settle p net i with
    | Fulfilled comparisons =>
        let comparison := head comparisons in
        let i := set_state (setComparisonResult comparison) i in
        let i := set_state (setSourceText (data_sourceText (data p))) i in
        set_state (setTargetText (data_targetText (data p))) i
    | Rejected e => alert (errorMessage (owner_elapsedTime p) e) i
    end in
  let i := set_state (setIsLoading false) i in
  let i := set_state (setIsRunning false) i in
  let i := assign_abortController (owner p) None i in
  timer_effect (rerender i).

(** The buttons of the latest render: Submit is disabled and Stop is shown
    while [isLoading]. *)
Definition click_submit (b : Axios.Bridge) (d : FormData) (i : Instance)
  : option (Instance * Pending) :=
  if isLoading (state i) then None else onSubmit_begin b (current_render i) d i.

Definition click_stop (i : Instance) : Instance :=
  if isLoading (state i) then onStopComparison (current_render i) i else i.

(** A session on a freshly mounted view: the user submits, presses Stop
    while the request is in flight, and then the network settles the
    request with [net]. *)
Definition submit_stop_settle (b : Axios.Bridge) (d : FormData) (net : Settled)
  : option Instance :=
  '(i, p) ← click_submit b d (mounted initial_state);
  Some (onSubmit_settle p net (click_stop i)).

(** *** The session-storage effect run when the component mounts *)

Definition is_lower (c : ascii) : bool := Uri.in_range 97 122 (N_of_ascii c).

Fixpoint strip_prefix (p s : string) : option string :=
  match p, s with
  | EmptyString, _ => Some s
  | String a p', String b s' => if Ascii.eqb a b then strip_prefix p' s' else None
  | String _ _, EmptyString => None
  end.

(** [://([a-z]{2})\.wikipedia\.org] at the head of [s]. *)
Definition match_host (s : string) : option string :=
  match strip_prefix "://" s with
  | Some (String a (String b rest)) =>
      if is_lower a && is_lower b then
        match strip_prefix ".wikipedia.org" rest with
        | Some _ => Some (String a (String b EmptyString))
        | None => None
        end
      else None
  | _ => None
  end.

(** [https?://([a-z]{2})\.wikipedia\.org] at the head of [s]. *)
Definition match_here (s : string) : option string :=
  match strip_prefix "http" s with
  | Some rest =>
      match rest with
      | String c rest' =>
          if Ascii.eqb c "s" then
            match match_host rest' with
            | Some lang => Some lang
            | None => match_host rest
            end
          else match_host rest
      | EmptyString => None
      end
  | None => None
  end.

(** [url.match(/https?:\/\/([a-z]{2})\.wikipedia\.org/)], the capture of
    the leftmost match. *)
Fixpoint wikipedia_language (url : string) : option string :=
  match match_here url with
  | Some lang => Some lang
  | None =>
      match url with
      | EmptyString => None
      | String _ rest => wikipedia_language rest
      end
  end.

(** The [langMap] record of the effect. *)
Definition langMap (name : string) : option string :=
  if String.eqb name "English" then Some "en"
  else if String.eqb name "French" then Some "fr"
  else if String.eqb name "Hindi" then Some "hi"
  else if String.eqb name "Arabic" then Some "ar"
  else None.

Section MountEffect.
Context `{Platform}.

(** The body of [if (comparisonData) { ... }] up to, and without, the
    final [removeItem]. [new URL] may throw. *)
Definition load (h : Handoff.t) (st : State) : Completion string State :=
  let st := setSourceText (Handoff.sourceContent h) st in
  let st := setTargetText (Handoff.translatedContent h) st in
  let* st :=
    (if Config.truthy_string (Handoff.sourceUrl h) then
       let sourceLang := default "en" (wikipedia_language (Handoff.sourceUrl h)) in
       let st := setSourceLanguage sourceLang st in
       let targetLang := Handoff.targetLanguage h in
       let* st :=
         (if Config.truthy_string targetLang then
            match URL_new (Handoff.sourceUrl h) with
            | Some targetUrlObj =>
                let targetUrlObj :=
                  URL_set_hostname targetUrlObj
                    (toLowerCase targetLang +:+ ".wikipedia.org") in
                let st := setTargetUrl (URL_toString targetUrlObj) st in
                Normal (setTargetLanguage
                          (or_text (langMap targetLang) (toLowerCase targetLang)) st)
            | None => Throw "Invalid URL"
            end
          else Normal st) in
       let st := setIsTargetTextReadOnly true st in
       Normal (setIsTargetLanguageReadOnly true st)
     else Normal st) in
  let st := form_setValue_sourceText (Handoff.sourceContent h) st in
  Normal (form_setValue_targetText (Handoff.translatedContent h) st).

(** The effect, run on a freshly mounted instance. An exception leaves
    the effect before [removeItem]. *)
Definition mount_effect (w : Browser.t) (i : Instance)
  : Completion string Instance * Browser.t :=
  let '(comparisonData, w) := Browser.getItem "comparisonData" w in
  match comparisonData with
  | Some h =>
      match load h (state i) with
      | Normal st =>
          (Normal (rerender (set_state (fun _ => st) i)),
           Browser.removeItem "comparisonData" w)
      | Throw e => (Throw e, w)
      end
  | None => (Normal i, w)
  end.

Definition mount (w : Browser.t) : Completion string Instance * Browser.t :=
  mount_effect w (mounted initial_state).

End MountEffect.

(** *** The results section of the rendered view *)

#[warnings="-register-all"]
Inductive Element :=
| Text (s : string)
| El (tag : string) (children : list Element).

Definition dquote : string := String (ascii_of_N 34) EmptyString.

(** [array[index]]: [None] for [undefined]. *)
Definition at_index (array : list string) (index : Z) : option string :=
  if index <? 0 then None else array !! Z.to_nat index.

(** A child that is [undefined] or [false] renders nothing. *)
Definition child (x : option string) : list Element :=
  match x with
  | Some s => [Text s]
  | None => []
  end.

Definition when (cond : bool) (e : Element) : list Element :=
  if cond then [e] else [].

(** [<li>Sentence {index + 1}: "{array[index]}"</li>] *)
Definition sentence_item (array : list string) (index : Z) : Element :=
  El "li" ([Text "Sentence "; Text (Number_toString (index + 1)); Text (": " +:+ dquote)]
           ++ child (at_index array index) ++ [Text dquote]).

Definition render_results (comparisonResult : option ComparisonResult) : list Element :=
  match comparisonResult with
  | None => []
  | Some r =>
      let right_index := right_article_extra_info_index r in
      let left_index := left_article_missing_info_index r in
      [El "div"
         [El "Separator" [];
          El "div"
            ([El "h3" [Text "Comparison Results"]]
             ++ when (0 <? Z.of_nat (length right_index))
                  (El "div"
                     [El "h4" [Text "Missing Information in Translation"];
                      El "ul" (map (sentence_item (right_article_array r)) right_index)])
             ++ when (0 <? Z.of_nat (length left_index))
                  (El "div"
                     [El "h4" [Text "Extra Information in Translation"];
                      El "ul" (map (sentence_item (left_article_array r)) left_index)])
             ++ when ((Z.of_nat (length right_index) =? 0)
                      && (Z.of_nat (length left_index) =? 0))
                  (El "div"
                     [Text "No significant differences found between the texts."]))]]
  end.

(** Reading a rendered tree. *)
Fixpoint text_content (e : Element) : string :=
  match e with
  | Text s => s
  | El _ children =>
      (fix go (l : list Element) : string :=
         match l with
         | [] => EmptyString
         | c :: l' => text_content c +:+ go l'
         end) children
  end.

(** All elements with a given tag, in document order. *)
Fixpoint elements_by_tag (tag : string) (e : Element) : list Element :=
  match e with
  | Text _ => []
  | El t children =>
      (if String.eqb t tag then [e] else [])
      ++ (fix go (l : list Element) : list Element :=
            match l with
            | [] => []
            | c :: l' => elements_by_tag tag c ++ go l'
            end) children
  end.

(** The labelled lists of a tree: for every element made of a heading
    [h4] followed by a list [ul], the heading text and the texts of the
    list items. *)
Definition labelled_list (e : Element) : list (string * list string) :=
  match e with
  | El _ [El t1 heading; El t2 items] =>
      if String.eqb t1 "h4" && String.eqb t2 "ul"
      then [(text_content (El t1 heading), map text_content items)]
      else []
  | _ => []
  end.

Fixpoint labelled_lists (e : Element) : list (string * list string) :=
  match e with
  | Text _ => []
  | El _ children =>
      labelled_list e
      ++ (fix go (l : list Element) : list (string * list string) :=
            match l with
            | [] => []
            | c :: l' => labelled_lists c ++ go l'
            end) children
  end.

Definition labelled_lists_of (tree : list Element) : list (string * list string) :=
  flat_map labelled_lists tree.

Definition list_items_of (tree : list Element) : list Element :=
  flat_map (elements_by_tag "li") tree.

Definition texts_of (tree : list Element) : list string :=
  map text_content tree.

(** The text [Sentence n: "text"]. *)
Definition sentence (n : string) (text : string) : string :=
  "Sentence " +:+ n +:+ ": " +:+ dquote +:+ text +:+ dquote.

Definition is_missing_information (l : string * list string) : bool :=
  String.prefix "Missing Information" (fst l).

(** *** [fetchFromUrl] *)

(** How the [fetchArticle] promise settles: with [response.data.sourceArticle],
    or rejected. *)
Inductive FetchSettled :=
| FetchFulfilled (sourceArticle : string)
| FetchRejected.

Definition fetch_failed : string :=
  "Failed to fetch article. Please check the URL and try again.".

(** [fetchFromUrl] up to [await fetchArticle(url)]. *)
Definition fetchFromUrl_begin (b : Axios.Bridge) (url : string) (i : Instance)
  : Instance * Completion string Services.Request :=
  (rerender (set_state (setIsLoading true) i), Services.fetchArticle b url).

(** The rest of [fetchFromUrl]: the [try] body, [catch] and [finally]. *)
Definition fetchFromUrl_settle (url : string)
    (setText setLang : string -> State -> State) (r : FetchSettled) (i : Instance)
  : Instance :=
  let i :=
    match r with
    | FetchFulfilled text =>
        let language := default "en" (wikipedia_language url) in
        let i := set_state (setLang language) i in
        let i := set_state (setText text) i in
        set_state (form_setValue_sourceText text) i
    | FetchRejected => alert fetch_failed i
    end in
  rerender (set_state (setIsLoading false) i).

(** *** Sessions: what the user and the network can do to a mounted view *)

Inductive Action :=
| Submit (d : FormData)              (* the Compare Articles button *)
| Stop                               (* the Stop button *)
| Tick                               (* one second passes *)
| Settle (net : Settled)             (* the compare request settles *)
| Fetch (url : string)               (* the Fetch button, with the URL field *)
| FetchSettle (r : FetchSettled).    (* the fetch request settles *)

Record Session := {
  instance : Instance;
  pending : option Pending;          (* the compare request in flight *)
  fetching : option string           (* the URL of the fetch in flight *)
}.

Definition opened (st : State) : Session :=
  {| instance := mounted st; pending := None; fetching := None |}.

Definition step (b : Axios.Bridge) (s : Session) (a : Action) : Session :=
  match a with
  | Submit d =>
      match click_submit b d (instance s) with
      | Some (i, p) => {| instance := i; pending := Some p; fetching := fetching s |}
      | None => s
      end
  | Stop =>
      {| instance := click_stop (instance s); pending := pending s;
         fetching := fetching s |}
  | Tick =>
      {| instance := tick (instance s); pending := pending s; fetching := fetching s |}
  | Settle net =>
      match pending s with
      | Some p =>
          {| instance := onSubmit_settle p net (instance s); pending := None;
             fetching := fetching s |}
      | None => s
      end
  | Fetch url =>
      if isLoading (state (instance s)) then s
      else if Config.truthy_string url then
        {| instance := fst (fetchFromUrl_begin b url (instance s));
           pending := pending s; fetching := Some url |}
      else s
  | FetchSettle r =>
      match fetching s with
      | Some url =>
          {| instance := fetchFromUrl_settle url setSourceText setSourceLanguage r
                           (instance s);
             pending := pending s; fetching := None |}
      | None => s
      end
  end.

Definition run (b : Axios.Bridge) (s : Session) (actions : list Action) : Session :=
  fold_left (step b) actions s.

(** The message of a connection timeout. *)
Definition timeout_error : AxiosError :=
  {| code := Some "ECONNABORTED"; response := None;
     message := "timeout of 30000ms exceeded" |}.

Definition is_some {A} (x : option A) : bool :=
  match x with Some _ => true | None => false end.

(** What every session keeps true: no controller is aborted; the latest
    render sees the current state and an empty [abortController] variable;
    the loading flag tells whether a request is in flight, the running flag
    whether a compare request is; at most one request is in flight; the
    counter is 0 while idle; and a compare request in flight was issued
    without signal, by a closure that saw the counter at 0. *)
Definition well_formed (s : Session) : Prop :=
  let i := instance s in
  Forall (fun aborted => aborted = false) (controllers i) /\
  renders i !! current_render i = Some {| captured := state i; abortController := None |} /\
  isLoading (state i) = is_some (pending s) || is_some (fetching s) /\
  isRunning (state i) = is_some (pending s) /\
  is_some (pending s) && is_some (fetching s) = false /\
  (isRunning (state i) = false -> elapsedTime (state i) = 0) /\
  (forall p, pending s = Some p ->
     owner_elapsedTime p = 0 /\
     exists req, request p = Normal req /\ Services.signal req = None).

(** The text of the list item of [index]. *)
Definition item_text (array : list string) (index : Z) : string :=
  sentence (Number_toString (index + 1)) (default "" (at_index array index)).

Definition no_differences : string :=
  "No significant differences found between the texts.".

(** Whether a tree shows the no-differences message. *)
Definition shows_no_differences (tree : list Element) : bool :=
  existsb (fun e => String.eqb (text_content e) no_differences)
    (flat_map (elements_by_tag "div") tree).

End Comparison.

(** ** The page and the translation view (part_000: TranslationSection, Home) *)

Module Home.

Inductive Phase := TRANSLATION | AI_COMPARISON | STRUCTURED_ARTICLE.

Definition Phase_eqb (a b : Phase) : bool :=
  match a, b with
  | TRANSLATION, TRANSLATION => true
  | AI_COMPARISON, AI_COMPARISON => true
  | STRUCTURED_ARTICLE, STRUCTURED_ARTICLE => true
  | _, _ => false
  end.

(** The page: the committed [phase], a [setPhase] that waits for the
    running event handler to return, the browser, the comparison view
    (mounted while the phase is [AI_COMPARISON]) and an exception that
    escaped an effect. After such an exception React has unmounted the whole
    root: nothing of the page is left, neither a view nor a button. *)
Record App := {
  phase : Phase;
  pending_phase : option Phase;
  browser : Browser.t;
  comparisonSection : option Comparison.Instance;
  uncaught : option string
}.

Definition with_browser (w : Browser.t) (a : App) : App :=
  {| phase := phase a; pending_phase := pending_phase a; browser := w;
     comparisonSection := comparisonSection a; uncaught := uncaught a |}.

(** [setPhase(p)] inside an event handler: the update is queued. *)
Definition setPhase (p : Phase) (a : App) : App :=
  {| phase := phase a; pending_phase := Some p; browser := browser a;
     comparisonSection := comparisonSection a; uncaught := uncaught a |}.

(** A button of the document: the attributes written to the DOM (names in
    lower case, as the HTML parser and the selector matching have them) and
    the phase its React click handler sets, when it has one. *)
Record Button := {
  attributes : list (string * string);
  handler : option Phase
}.

(** A phase button as [Home] renders it: React keeps the [onClick] handler
    to itself and writes the class only. *)
Definition phase_button (current p : Phase) : Button :=
  {| attributes :=
       [("class",
         "px-4 py-2 rounded-lg transition-colors " +:+
         (if Phase_eqb current p then "bg-blue-500 text-white"
          else "bg-gray-200 text-gray-700 hover:bg-gray-300"))];
     handler := Some p |}.

Definition phase_buttons (current : Phase) : list Button :=
  [phase_button current TRANSLATION; phase_button current AI_COMPARISON;
   phase_button current STRUCTURED_ARTICLE].

Section Commit.
Context `{Platform}.

(** The render that follows an event handler: a changed phase unmounts
    the old view and mounts the new one; mounting the comparison view
    runs its session-storage effect. An exception that escapes the effect
    takes the page down; a page that is down renders nothing. *)
Definition commit (a : App) : App :=
  match uncaught a with
  | Some _ => a
  | None =>
      match pending_phase a with
      | None => a
      | Some p =>
          if Phase_eqb p (phase a) then
            {| phase := phase a; pending_phase := None; browser := browser a;
               comparisonSection := comparisonSection a; uncaught := None |}
          else
            match p with
            | AI_COMPARISON =>
                match Comparison.mount (browser a) with
                | (Normal i, w) =>
                    {| phase := p; pending_phase := None; browser := w;
                       comparisonSection := Some i; uncaught := None |}
                | (Throw e, w) =>
                    {| phase := p; pending_phase := None; browser := w;
                       comparisonSection := None; uncaught := Some e |}
                end
            | _ =>
                {| phase := p; pending_phase := None; browser := browser a;
                   comparisonSection := None; uncaught := None |}
            end
      end
  end.

(** The user clicks one of the three phase buttons, which only a page that
    is up has. *)
Definition navigate (p : Phase) (a : App) : App :=
  match uncaught a with
  | Some _ => a
  | None => commit (setPhase p a)
  end.

End Commit.

End Home.

Module Translation.

(** The values of the translation form. *)
Record TranslationFormType := {
  sourceArticleUrl : string;
  targetArticleLanguage : string;
  sourceArticleContent : string;
  translatedArticleContent : string
}.

Definition handoff_of (form : TranslationFormType) : Handoff.t :=
  {| Handoff.sourceContent := sourceArticleContent form;
     Handoff.translatedContent := translatedArticleContent form;
     Handoff.sourceUrl := sourceArticleUrl form;
     Handoff.targetLanguage := targetArticleLanguage form |}.

(** [handleCompare]. [comparisonButton] tells whether
    [document.querySelector] found the navigation button; clicking it runs
    its handler, [setPhase(Phase.AI_COMPARISON)]. *)
Definition handleCompare (form : TranslationFormType) (comparisonButton : bool)
    (a : Home.App) : Home.App :=
  let sourceContent := sourceArticleContent form in
  let translatedContent := translatedArticleContent form in
  let sourceUrl := sourceArticleUrl form in
  let targetLanguage := targetArticleLanguage form in
  let a :=
    if comparisonButton
    then Home.setPhase Home.AI_COMPARISON
           (Home.with_browser (Browser.emit Browser.Click_AI_COMPARISON (Home.browser a)) a)
    else a in
  Home.with_browser
    (Browser.setItem "comparisonData"
       {| Handoff.sourceContent := sourceContent;
          Handoff.translatedContent := translatedContent;
          Handoff.sourceUrl := sourceUrl;
          Handoff.targetLanguage := targetLanguage |}
       (Home.browser a))
    a.

(** [haystack.includes(needle)] *)
Fixpoint includes (needle haystack : string) : bool :=
  String.prefix needle haystack ||
  match haystack with
  | EmptyString => false
  | String _ rest => includes needle rest
  end.

Fixpoint attribute (name : string) (attrs : list (string * string)) : option string :=
  match attrs with
  | [] => None
  | (n, v) :: rest => if String.eqb n name then Some v else attribute name rest
  end.

(** The selector [button[onClick*="Phase.AI_COMPARISON"]]: the button has an
    [onclick] attribute whose value contains the text. *)
Definition matches_comparison_selector (b : Home.Button) : bool :=
  match attribute "onclick" (Home.attributes b) with
  | Some v => includes "Phase.AI_COMPARISON" v
  | None => false
  end.

(** [document.querySelector(...)] over the buttons of the document. *)
Definition querySelector (document : list Home.Button) : option Home.Button :=
  List.find matches_comparison_selector document.

(** A document rendered by React alone: no button carries an event handler
    attribute. *)
Definition react_rendered (document : list Home.Button) : Prop :=
  Forall (fun b => attribute "onclick" (Home.attributes b) = None) document.

(** [handleCompare] on a page with the given buttons. *)
Definition handleCompare_in (document : list Home.Button) (form : TranslationFormType)
    (a : Home.App) : Home.App :=
  handleCompare form (Comparison.is_some (querySelector document)) a.

(** *** [startBackend] and the backend status *)

Inductive BackendStatus := unknown | online | offline.

(** The part of the view that [startBackend] touches: the status, the
    starting flag, the messages shown with [alert] and the number of status
    checks scheduled with [setTimeout]. *)
Record Control := {
  backendStatus : BackendStatus;
  isBackendStarting : bool;
  shown : list string;
  scheduled_checks : nat
}.

(** [window.electronAPI.startBackend()]: missing, or an invocation of the
    handler of the privileged process. *)
Inductive StartBridge :=
| NoStartBridge
| StartInvoke (os : MainProcess.OS).

Definition invoke_startBackend (sb : StartBridge) : Completion string MainProcess.Reply :=
  match sb with
  | NoStartBridge => Throw "window.electronAPI.startBackend is not a function"
  | StartInvoke os => MainProcess.reply (MainProcess.invoke_start_backend os)
  end.

Definition set_starting (v : bool) (c : Control) : Control :=
  {| backendStatus := backendStatus c; isBackendStarting := v;
     shown := shown c; scheduled_checks := scheduled_checks c |}.

Definition show (m : string) (c : Control) : Control :=
  {| backendStatus := backendStatus c; isBackendStarting := isBackendStarting c;
     shown := shown c ++ [m]; scheduled_checks := scheduled_checks c |}.

Definition schedule_check (c : Control) : Control :=
  {| backendStatus := backendStatus c; isBackendStarting := isBackendStarting c;
     shown := shown c; scheduled_checks := S (scheduled_checks c) |}.

Definition startBackend (sb : StartBridge) (c : Control) : Control :=
  match backendStatus c with
  | online => c
  | _ =>
      let c := set_starting true c in
      let c :=
        match invoke_startBackend sb with
        | Normal result =>
            if MainProcess.success result then schedule_check c
            else show ("Failed to start backend: "
                       +:+ default "undefined" (MainProcess.error result)) c
        | Throw _ => show "Failed to start backend. Please check the logs." c
        end in
      set_starting false c
  end.

(** [checkBackendStatus]: the probe request fulfilled, or anything else. *)
Definition checkBackendStatus (probe_fulfilled : bool) (c : Control) : Control :=
  {| backendStatus := if probe_fulfilled then online else offline;
     isBackendStarting := isBackendStarting c;
     shown := shown c; scheduled_checks := scheduled_checks c |}.

(** *** The title sent by [onLanguageChange] *)

(** [pathname.split('/').pop()]: the text after the last [/]. *)
Fixpoint last_segment (s : string) : string :=
  match s with
  | EmptyString => EmptyString
  | String c rest =>
      if Uri.count_char "/" rest =? 0 then
        (if Ascii.eqb c "/" then rest else s)
      else last_segment rest
  end%nat.

(** [new URL(sourceUrl).pathname.split('/').pop() || sourceUrl], given the
    path name of the URL. *)
Definition title_of (pathname sourceUrl : string) : string :=
  Comparison.or_text (Some (last_segment pathname)) sourceUrl.

(** The page showing the translation view, over a browser [w]. *)
Definition translation_page (w : Browser.t) : Home.App :=
  {| Home.phase := Home.TRANSLATION; Home.pending_phase := None; Home.browser := w;
     Home.comparisonSection := None; Home.uncaught := None |}.

Definition empty_browser : Browser.t :=
  {| Browser.sessionStorage := ∅; Browser.trace := [] |}.

Definition sample_form : TranslationFormType :=
  {| sourceArticleUrl := "https://en.wikipedia.org/wiki/Alan_Turing";
     targetArticleLanguage := "French";
     sourceArticleContent := "Alan Turing was a mathematician.";
     translatedArticleContent := "Alan Turing fut un mathematicien." |}.

(** A form whose URL field was edited into something that is no URL after
    the article had been fetched and translated. *)
Definition edited_form : TranslationFormType :=
  {| sourceArticleUrl := "Alan Turing";
     targetArticleLanguage := "French";
     sourceArticleContent := "Alan Turing was a mathematician.";
     translatedArticleContent := "Alan Turing fut un mathematicien." |}.

End Translation.

(** A small platform for examples: a URL is a scheme, [://], a host name and
    the rest from the first [/] on; only ASCII letters are lower-cased. *)
Module ExamplePlatform.

Record url := { scheme : string; hostname : string; rest : string }.

Fixpoint split_scheme (s : string) : option (string * string) :=
  match Comparison.strip_prefix "://" s with
  | Some r => Some (EmptyString, r)
  | None =>
      match s with
      | EmptyString => None
      | String c s' =>
          match split_scheme s' with
          | Some (sch, r) => Some (String c sch, r)
          | None => None
          end
      end
  end.

Fixpoint split_host (s : string) : string * string :=
  match s with
  | EmptyString => (EmptyString, EmptyString)
  | String c s' =>
      if Ascii.eqb c "/" then (EmptyString, s)
      else let '(h, r) := split_host s' in (String c h, r)
  end.

Definition url_new (s : string) : option url :=
  match split_scheme s with
  | Some (sch, r) =>
      let '(h, r') := split_host r in
      if String.eqb h "" then None
      else Some {| scheme := sch; hostname := h; rest := r' |}
  | None => None
  end.

Definition url_set_hostname (u : url) (h : string) : url :=
  {| scheme := scheme u; hostname := h; rest := rest u |}.

Definition url_toString (u : url) : string :=
  scheme u +:+ "://" +:+ hostname u +:+ rest u.

Definition lower (c : ascii) : ascii :=
  let n := N_of_ascii c in
  if Uri.in_range 65 90 n then ascii_of_N (n + 32) else c.

Fixpoint lower_case (s : string) : string :=
  match s with
  | EmptyString => EmptyString
  | String c s' => String (lower c) (lower_case s')
  end.

Definition platform : Platform :=
  {| URL := url; URL_new := url_new; URL_set_hostname := url_set_hostname;
     URL_toString := url_toString; toLowerCase := lower_case |}.

End ExamplePlatform.

(** * Properties *)

(** ** Percent-encoding *)

Section UriFacts.
Import Uri.

Ltac by_cases_on_byte c :=
  destruct c as [[] [] [] [] [] [] [] []]; vm_compute; try reflexivity; try discriminate.

Lemma unreserved_is_not_percent (c : ascii) :
  is_unreserved c = true -> Ascii.eqb c "%" = false.
Proof. by_cases_on_byte c. Qed.

Lemma hex_pair_decodes (c : ascii) :
  hex_value (hex_digit (N_of_ascii c / 16)) = Some (N_of_ascii c / 16)%N /\
  hex_value (hex_digit (N_of_ascii c mod 16)) = Some (N_of_ascii c mod 16)%N /\
  ascii_of_N (16 * (N_of_ascii c / 16) + N_of_ascii c mod 16) = c.
Proof. by_cases_on_byte c; repeat split; reflexivity. Qed.

Lemma hex_digit_is_encoded_char (c : ascii) :
  is_encoded_char (hex_digit (N_of_ascii c / 16)) = true /\
  is_encoded_char (hex_digit (N_of_ascii c mod 16)) = true.
Proof. by_cases_on_byte c; split; reflexivity. Qed.

Lemma encode_cons (c : ascii) (s : string) :
  encodeURIComponent (String c s) =
  if is_unreserved c then String c (encodeURIComponent s)
  else String "%" (String (hex_digit (N_of_ascii c / 16))
                     (String (hex_digit (N_of_ascii c mod 16)) (encodeURIComponent s))).
Proof. simpl. destruct (is_unreserved c); reflexivity. Qed.

(** Decoding an encoded component once gives the component back. *)
Lemma decode_encode (s : string) :
  decodeURIComponent (encodeURIComponent s) = Some s.
Proof.
  induction s as [|c s IH]; [reflexivity|].
  rewrite encode_cons. destruct (is_unreserved c) eqn:Hc.
  - cbn [decodeURIComponent]. rewrite (unreserved_is_not_percent c Hc), IH. reflexivity.
  - destruct (hex_pair_decodes c) as (Hh & Hl & Hb).
    cbn [decodeURIComponent]. change (Ascii.eqb "%" "%") with true. cbn iota.
    rewrite Hh, Hl, IH, Hb. reflexivity.
Qed.

(** An encoded component consists of unreserved characters and escapes. *)
Lemma encode_chars (s : string) (c : ascii) :
  In c (chars (encodeURIComponent s)) -> is_encoded_char c = true.
Proof.
  induction s as [|a s IH]; [intros []|].
  rewrite encode_cons. destruct (is_unreserved a) eqn:Ha; cbn [chars In].
  - intros [<-|Hin]; [|auto]. unfold is_encoded_char. rewrite Ha. reflexivity.
  - destruct (hex_digit_is_encoded_char a) as [Hh Hl].
    intros [<-|[<-|[<-|Hin]]]; auto.
Qed.

Lemma encode_has_no_raw (s : string) (c : ascii) :
  is_encoded_char c = false -> ~ In c (chars (encodeURIComponent s)).
Proof. intros Hc Hin. apply encode_chars in Hin. congruence. Qed.

End UriFacts.

(** ** The services *)

Section ServiceFacts.
Import Uri Services.

(** The client wrapper never throws. *)
Lemma getAxiosInstance_total (b : Axios.Bridge) :
  exists c, Axios.getAxiosInstance b = Normal c /\ Axios.timeout c = 30000.
Proof.
  unfold Axios.getAxiosInstance.
  destruct b as [| m | [c|]]; cbn; try (eexists; split; reflexivity).
  destruct (Config.truthy_string (Config.BACKEND_BASE_URL c)); cbn;
    eexists; split; reflexivity.
Qed.

(** C3. [fetchArticle(url)] always issues its request, and the query string
    of the request is [query=] followed by [url] percent-encoded once:
    decoding the value one time gives [url] back, and the value holds no
    raw [&] (nor any other reserved character), whatever [url] contains. *)
Theorem fetchArticle_encodes_url_once (b : Axios.Bridge) (url : string) :
  exists req value,
    fetchArticle b url = Normal req /\
    query req = Some ("query=" +:+ value) /\
    value = encodeURIComponent url /\
    decodeURIComponent value = Some url /\
    ~ In "&"%char (chars value) /\
    (forall c, In c (chars value) -> is_encoded_char c = true) /\
    query_of (fetchArticle b "a&b") = Some "query=a%26b".
Proof.
  destruct (getAxiosInstance_total b) as (c & Hc & _).
  exists (get c "/symmetry/v1/wiki/articles" (fetchArticle_params url)
            fetchArticle_paramsSerializer), (encodeURIComponent url).
  unfold fetchArticle. rewrite Hc. cbn.
  repeat split.
  - apply decode_encode.
  - apply encode_has_no_raw. reflexivity.
  - apply encode_chars.
Qed.

(** C2. [translateArticle(title, language)] always issues its request, and
    its query string is [title=], the title as it is, [&language=], and the
    language percent-encoded: a space of the title stays a space, a [/] of
    the language becomes [%2F]. *)
Theorem translateArticle_title_raw_language_encoded
    (b : Axios.Bridge) (title language : string) :
  exists req,
    translateArticle b title language = Normal req /\
    query req = Some ("title=" +:+ title +:+ "&language=" +:+ encodeURIComponent language) /\
    decodeURIComponent (encodeURIComponent language) = Some language /\
    ~ In "/"%char (chars (encodeURIComponent language)) /\
    (forall c, In c (chars (encodeURIComponent language)) -> is_encoded_char c = true) /\
    query_of (translateArticle b "New York" "zh/Hant")
    = Some "title=New York&language=zh%2FHant".
Proof.
  destruct (getAxiosInstance_total b) as (c & Hc & _).
  exists (get c "/symmetry/v1/wiki_translate/source_article"
            (translateArticle_params title language) translateArticle_paramsSerializer).
  unfold translateArticle. rewrite Hc. cbn.
  repeat split.
  - apply decode_encode.
  - apply encode_has_no_raw. reflexivity.
  - apply encode_chars.
Qed.

End ServiceFacts.

(** ** Configuration defaults *)

Section ConfigFacts.
Import Config.

Lemma truthy_number_false (n : Z) : truthy_number n = false <-> n = 0.
Proof. unfold truthy_number. destruct (Z.eqb_spec n 0); cbn; split; congruence. Qed.

Lemma truthy_string_false (s : string) : truthy_string s = false <-> s = "".
Proof. unfold truthy_string. destruct (String.eqb_spec s ""); cbn; split; congruence. Qed.

Lemma truthy_rational_false (q : Q) : truthy_rational q = false <-> Qnum q = 0.
Proof.
  unfold truthy_rational, Qeq_bool. cbn [Qnum Qden].
  rewrite Z.mul_1_r, Z.mul_0_l.
  destruct (Z.eqb_spec (Qnum q) 0) as [E|E]; cbn; split; intros H;
    solve [assumption | reflexivity | discriminate | contradiction].
Qed.

Lemma or_default_missing {A} (truthy : A -> bool) (d : A) :
  or_default truthy None d = d.
Proof. reflexivity. Qed.

(** A configured value is kept if and only if it is truthy, provided the
    default is itself truthy. *)
Lemma or_default_keeps_iff {A} (truthy : A -> bool) (v d : A) :
  truthy d = true ->
  (or_default truthy (Some v) d = v <-> truthy v = true) /\
  (truthy v = false -> or_default truthy (Some v) d = d).
Proof.
  intros Hd. cbn. destruct (truthy v) eqn:Hv; repeat split; auto; congruence.
Qed.

(** C4. Every config file that parses to an object is loaded, and each
    missing key gets its documented default: port 8000, frontend port 5173,
    timeout 30000, threshold 0.65, and the base URL http://127.0.0.1:
    followed by the resolved port, which is the port of the file when the
    file gives one other than 0, and 8000 when the port is missing too. *)
Theorem load_fills_defaults (configData : File.AppConfig) :
  exists r,
    initializeConstants (Parsed (JObject configData)) = Normal r /\
    (File.BACKEND_PORT configData = None -> BACKEND_PORT r = 8000) /\
    (File.FRONTEND_PORT configData = None -> FRONTEND_PORT r = 5173) /\
    (File.DEFAULT_TIMEOUT configData = None -> DEFAULT_TIMEOUT r = 30000) /\
    (File.SIMILARITY_THRESHOLD configData = None -> SIMILARITY_THRESHOLD r = 0.65%Q) /\
    (File.BACKEND_BASE_URL configData = None ->
     BACKEND_BASE_URL r = "http://127.0.0.1:" +:+ Number_toString (BACKEND_PORT r)) /\
    (forall port, File.BACKEND_PORT configData = Some port -> port <> 0 ->
       BACKEND_PORT r = port) /\
    (forall port, File.BACKEND_BASE_URL configData = None ->
       File.BACKEND_PORT configData = Some port -> port <> 0 ->
       BACKEND_BASE_URL r = "http://127.0.0.1:" +:+ Number_toString port) /\
    (File.BACKEND_BASE_URL configData = None -> File.BACKEND_PORT configData = None ->
       BACKEND_BASE_URL r = "http://127.0.0.1:8000").
Proof.
  exists (build_constants configData). split; [reflexivity|].
  unfold build_constants; cbn [BACKEND_PORT FRONTEND_PORT DEFAULT_TIMEOUT
                                 SIMILARITY_THRESHOLD BACKEND_BASE_URL].
  assert (Hkeep : forall port, port <> 0 -> or_default truthy_number (Some port) 8000 = port).
  { intros port Hp. cbn. destruct (truthy_number port) eqn:E; [reflexivity|].
    apply truthy_number_false in E. contradiction. }
  repeat match goal with |- _ /\ _ => split end.
  - intros ->. reflexivity.
  - intros ->. reflexivity.
  - intros ->. reflexivity.
  - intros ->. reflexivity.
  - intros ->. reflexivity.
  - intros port -> Hp. apply Hkeep, Hp.
  - intros port -> -> Hp. rewrite (Hkeep port Hp). reflexivity.
  - intros -> ->. reflexivity.
Qed.

Lemma load_fills_defaults_witness :
  (exists r,
     initializeConstants (Parsed (JObject empty_config)) = Normal r /\
     BACKEND_PORT r = 8000 /\ FRONTEND_PORT r = 5173 /\ DEFAULT_TIMEOUT r = 30000 /\
     SIMILARITY_THRESHOLD r = 0.65%Q /\ BACKEND_BASE_URL r = "http://127.0.0.1:8000") /\
  (exists r,
     initializeConstants (Parsed (JObject port_only_config)) = Normal r /\
     BACKEND_PORT r = 9000 /\ FRONTEND_PORT r = 5173 /\ DEFAULT_TIMEOUT r = 30000 /\
     SIMILARITY_THRESHOLD r = 0.65%Q /\ BACKEND_BASE_URL r = "http://127.0.0.1:9000").
Proof.
  split.
  - destruct (load_fills_defaults empty_config)
      as (r & Hr & Hp & Hf & Ht & Hs & _ & _ & _ & Hu).
    exists r. split; [exact Hr|].
    repeat split; [apply Hp | apply Hf | apply Ht | apply Hs | apply Hu]; reflexivity.
  - destruct (load_fills_defaults port_only_config)
      as (r & Hr & _ & Hf & Ht & Hs & _ & Hp & Hu & _).
    exists r. split; [exact Hr|].
    repeat split;
      [apply (Hp 9000) | apply Hf | apply Ht | apply Hs | apply (Hu 9000)];
      try reflexivity; discriminate.
Defined.

(** C10. The defaults are applied with [||]: for each of the six keys a
    configured value survives into the constants exactly when it is truthy,
    and a configured falsy value (a number 0, an empty URL) is replaced by
    the default. *)
Theorem falsy_values_are_replaced (configData : File.AppConfig) :
  exists r,
    initializeConstants (Parsed (JObject configData)) = Normal r /\
    (forall v, File.BACKEND_PORT configData = Some v ->
       (BACKEND_PORT r = v <-> truthy_number v = true) /\
       (v = 0 -> BACKEND_PORT r = 8000)) /\
    (forall v, File.FRONTEND_PORT configData = Some v ->
       (FRONTEND_PORT r = v <-> truthy_number v = true) /\
       (v = 0 -> FRONTEND_PORT r = 5173)) /\
    (forall v, File.DEFAULT_TIMEOUT configData = Some v ->
       (DEFAULT_TIMEOUT r = v <-> truthy_number v = true) /\
       (v = 0 -> DEFAULT_TIMEOUT r = 30000)) /\
    (forall v, File.SIMILARITY_THRESHOLD configData = Some v ->
       (SIMILARITY_THRESHOLD r = v <-> truthy_rational v = true) /\
       (Qnum v = 0 -> SIMILARITY_THRESHOLD r = 0.65%Q)) /\
    (forall v, File.BACKEND_BASE_URL configData = Some v ->
       (BACKEND_BASE_URL r = v <-> truthy_string v = true) /\
       (v = "" ->
        BACKEND_BASE_URL r = "http://127.0.0.1:" +:+ Number_toString (BACKEND_PORT r))) /\
    (forall v, File.OLLAMA_BASE_URL configData = Some v ->
       (OLLAMA_BASE_URL r = v <-> truthy_string v = true) /\
       (v = "" -> OLLAMA_BASE_URL r = "http://localhost:11434")) /\
    initializeConstants (Parsed (JObject falsy_config))
    = Normal {| BACKEND_BASE_URL := "http://127.0.0.1:8000"; BACKEND_PORT := 8000;
                FRONTEND_PORT := 5173; OLLAMA_BASE_URL := "http://localhost:11434";
                DEFAULT_TIMEOUT := 30000; SIMILARITY_THRESHOLD := 0.65%Q |} /\
    initializeConstants (Parsed (JObject all_falsy_config))
    = Normal {| BACKEND_BASE_URL := "http://127.0.0.1:8000"; BACKEND_PORT := 8000;
                FRONTEND_PORT := 5173; OLLAMA_BASE_URL := "http://localhost:11434";
                DEFAULT_TIMEOUT := 30000; SIMILARITY_THRESHOLD := 0.65%Q |}.
Proof.
  exists (build_constants configData). split; [reflexivity|].
  unfold build_constants; cbn [BACKEND_PORT FRONTEND_PORT DEFAULT_TIMEOUT
                                 SIMILARITY_THRESHOLD BACKEND_BASE_URL OLLAMA_BASE_URL].
  repeat match goal with |- _ /\ _ => split end; try reflexivity.
  - intros v ->. split; [apply or_default_keeps_iff; reflexivity|].
    intros ->. reflexivity.
  - intros v ->. split; [apply or_default_keeps_iff; reflexivity|].
    intros ->. reflexivity.
  - intros v ->. split; [apply or_default_keeps_iff; reflexivity|].
    intros ->. reflexivity.
  - intros v ->. split; [apply or_default_keeps_iff; reflexivity|].
    intros Hv. apply or_default_keeps_iff; [reflexivity|].
    apply truthy_rational_false, Hv.
  - intros v ->. split.
    + cbn [or_default]. destruct (truthy_string v) eqn:Hv; [tauto|].
      apply truthy_string_false in Hv. subst v. split; discriminate.
    + intros ->. reflexivity.
  - intros v ->. split; [apply or_default_keeps_iff; reflexivity|].
    intros ->. reflexivity.
Qed.

Lemma falsy_values_are_replaced_witness :
  exists r,
    initializeConstants (Parsed (JObject all_falsy_config)) = Normal r /\
    BACKEND_PORT r = 8000 /\ FRONTEND_PORT r = 5173 /\ DEFAULT_TIMEOUT r = 30000 /\
    SIMILARITY_THRESHOLD r = 0.65%Q /\
    BACKEND_BASE_URL r = "http://127.0.0.1:8000" /\
    OLLAMA_BASE_URL r = "http://localhost:11434".
Proof.
  destruct (falsy_values_are_replaced all_falsy_config)
    as (r & Hr & Hp & Hf & Ht & Hs & Hu & Ho & _).
  exists r. split; [exact Hr|].
  destruct (Hp 0 eq_refl) as [_ Hp0]. destruct (Hf 0 eq_refl) as [_ Hf0].
  destruct (Ht 0 eq_refl) as [_ Ht0]. destruct (Hs 0%Q eq_refl) as [_ Hs0].
  destruct (Hu "" eq_refl) as [_ Hu0]. destruct (Ho "" eq_refl) as [_ Ho0].
  rewrite (Hu0 eq_refl), (Hp0 eq_refl).
  repeat split; [apply Hf0 | apply Ht0 | apply Hs0 | apply Ho0]; reflexivity.
Defined.

End ConfigFacts.

(** ** The client fallback *)

Section AxiosFacts.
Import Axios.

Lemma getAxiosInstance_configured (b : Bridge) :
  config_unavailable b = false ->
  exists c, getAppConfig b = Normal (Some c) /\
            getAxiosInstance b = Normal (create (Config.BACKEND_BASE_URL c) 30000).
Proof.
  destruct b as [| m | [c|]]; cbn; try discriminate.
  intros Hc. exists c. split; [reflexivity|].
  unfold getAxiosInstance. cbn. rewrite Hc. reflexivity.
Qed.

(** A failed configuration load leaves the privileged process without
    constants, which the renderer meets as an unavailable configuration. *)
Lemma failed_load_is_unavailable (f : Config.ConfigFile) (e : string) :
  Config.initializeConstants f = Throw e ->
  config_unavailable (bridge_of (MainProcess.createWindow f MainProcess.initial)) = true.
Proof.
  intros He. unfold MainProcess.createWindow, MainProcess.grabConfig.
  rewrite He. reflexivity.
Qed.

(** C5. When the configuration cannot be obtained, [getAxiosInstance] does
    not throw: it returns a client on http://127.0.0.1:8000 with the
    30-second timeout that a configured client has too. *)
Theorem getAxiosInstance_falls_back (b : Bridge) :
  config_unavailable b = true ->
  getAxiosInstance b = Normal {| baseURL := "http://127.0.0.1:8000"; timeout := 30000 |} /\
  (forall b' c', getAxiosInstance b' = Normal c' -> timeout c' = 30000).
Proof.
  intros Hb. split.
  - unfold getAxiosInstance.
    destruct b as [| m | [c|]]; cbn in *; try reflexivity.
    rewrite Hb. reflexivity.
  - intros b' c' Hc'. destruct (getAxiosInstance_total b') as (c & Hc & Ht).
    congruence.
Qed.

Lemma getAxiosInstance_falls_back_witness :
  getAxiosInstance
    (bridge_of (MainProcess.createWindow (Config.Unreadable "ENOENT") MainProcess.initial))
  = Normal {| baseURL := "http://127.0.0.1:8000"; timeout := 30000 |}.
Proof.
  apply (getAxiosInstance_falls_back
           (bridge_of (MainProcess.createWindow (Config.Unreadable "ENOENT")
                         MainProcess.initial))).
  reflexivity.
Defined.

End AxiosFacts.

(** ** The start-backend handler *)

Section MainProcessFacts.
Import MainProcess.

(** C9. If neither [exec] nor [execFile] throws synchronously, the handler
    answers [{ success: true }], however the backend child ends; when the
    child fails, the failure object is only the return value of the
    completion callback. *)
Theorem start_backend_reports_success (os : OS) :
  exec_throws os = None ->
  execFile_throws os = None ->
  reply (invoke_start_backend os) = Normal {| success := true; error := None |} /\
  (forall m, child_error (backend_result os) = Some m ->
     callback_returned (invoke_start_backend os)
     = Some {| success := false; error := Some m |}).
Proof.
  intros He Hf. unfold invoke_start_backend, start_backend_handler, exec_call, execFile_call.
  rewrite He, Hf. cbn. split; [reflexivity|].
  intros m Hm. unfold execFile_callback. rewrite Hm. reflexivity.
Qed.

Lemma start_backend_reports_success_witness :
  reply (invoke_start_backend failing_os) = Normal {| success := true; error := None |} /\
  callback_returned (invoke_start_backend failing_os)
  = Some {| success := false; error := Some "spawn python3 ENOENT" |}.
Proof.
  destruct (start_backend_reports_success failing_os eq_refl eq_refl) as [Hr Hc].
  split; [exact Hr|]. apply Hc. reflexivity.
Defined.

End MainProcessFacts.

(** ** The comparison view: submission, cancellation, results *)

Section ComparisonFacts.
Import Comparison.

Lemma compareArticles_has_no_signal (b : Axios.Bridge) (tA tB lA lB : string) :
  exists req, Services.compareArticles b tA tB lA lB = Normal req /\
              Services.signal req = None.
Proof.
  destruct (getAxiosInstance_total b) as (c & Hc & _).
  unfold Services.compareArticles. rewrite Hc. cbn. eexists. split; reflexivity.
Qed.

Lemma onSubmit_begin_request (b : Axios.Bridge) (r : nat) (d : FormData)
    (i i1 : Instance) (p : Pending) :
  onSubmit_begin b r d i = Some (i1, p) ->
  data p = d /\
  exists req, request p = Normal req /\ Services.signal req = None.
Proof.
  unfold onSubmit_begin. destruct (renders i !! r) as [rd|]; [|discriminate].
  cbn. intros [= <- <-]. cbn. split; [reflexivity|].
  apply compareArticles_has_no_signal.
Qed.

(** The request of a submission settles as the network settles it, whatever
    has happened to the component in between: its config has no signal. *)
Lemma settle_is_network (b : Axios.Bridge) (r : nat) (d : FormData)
    (i i1 : Instance) (p : Pending) :
  onSubmit_begin b r d i = Some (i1, p) ->
  forall net i', settle p net i' = net.
Proof.
  intros Hb net i'. destruct (onSubmit_begin_request _ _ _ _ _ _ Hb) as (_ & req & Hr & Hs).
  unfold settle, transport. rewrite Hr, Hs. reflexivity.
Qed.

Lemma timer_effect_comparisonResult (i : Instance) :
  comparisonResult (state (timer_effect i)) = comparisonResult (state i).
Proof.
  unfold timer_effect. destruct (isRunning (state i)); [reflexivity|].
  destruct (elapsedTime (state i) =? 0); reflexivity.
Qed.

Lemma timer_effect_alerts (i : Instance) : alerts (timer_effect i) = alerts i.
Proof.
  unfold timer_effect. destruct (isRunning (state i)); [reflexivity|].
  destruct (elapsedTime (state i) =? 0); reflexivity.
Qed.

Lemma timer_effect_controllers (i : Instance) :
  controllers (timer_effect i) = controllers i.
Proof.
  unfold timer_effect. destruct (isRunning (state i)); [reflexivity|].
  destruct (elapsedTime (state i) =? 0); reflexivity.
Qed.

(** C6. Once a submission is under way, a successful response with the
    comparisons [c :: rest] sets [comparisonResult] to [c], and the rest of
    the array has no influence on the component. *)
Theorem onSubmit_reads_first_comparison (b : Axios.Bridge) (r : nat) (d : FormData)
    (i i1 : Instance) (p : Pending) :
  onSubmit_begin b r d i = Some (i1, p) ->
  forall (i' : Instance) (c : ComparisonResult) (rest : list ComparisonResult),
    comparisonResult (state (onSubmit_settle p (Fulfilled (c :: rest)) i')) = Some c /\
    onSubmit_settle p (Fulfilled (c :: rest)) i' = onSubmit_settle p (Fulfilled [c]) i'.
Proof.
  intros Hb i' c rest. unfold onSubmit_settle.
  rewrite !(settle_is_network _ _ _ _ _ _ Hb). cbn [head].
  split; [|reflexivity].
  rewrite timer_effect_comparisonResult. reflexivity.
Qed.

Lemma onSubmit_reads_first_comparison_witness :
  exists i1 p,
    onSubmit_begin Axios.NoBridge 0 {| data_sourceText := "a"; data_targetText := "b" |}
      (mounted initial_state) = Some (i1, p) /\
    forall c c',
      comparisonResult (state (onSubmit_settle p (Fulfilled [c; c']) i1)) = Some c.
Proof.
  eexists. eexists. split; [reflexivity|].
  intros c c'.
  apply (onSubmit_reads_first_comparison Axios.NoBridge 0
           {| data_sourceText := "a"; data_targetText := "b" |}
           (mounted initial_state) _ _ eq_refl).
Defined.

(** Pressing Stop, through the handler of any render, leaves the outcome of
    the request to the network. *)
Lemma stop_leaves_settlement (b : Axios.Bridge) (r r' : nat) (d : FormData)
    (i i1 : Instance) (p : Pending) (net : Settled) :
  onSubmit_begin b r d i = Some (i1, p) ->
  settle p net (onStopComparison r' i1) = net /\
  settle p net (click_stop i1) = net.
Proof.
  intros Hb. split; apply (settle_is_network _ _ _ _ _ _ Hb).
Qed.

(** The Stop button of the render that follows a submission sees a fresh
    [abortController] variable, so its handler does nothing. *)
Lemma click_stop_after_submit (b : Axios.Bridge) (d : FormData) (st : State)
    (i1 : Instance) (p : Pending) :
  click_submit b d (mounted st) = Some (i1, p) ->
  click_stop i1 = i1 /\ controllers i1 = [false].
Proof.
  unfold click_submit. cbn [mounted state].
  destruct (isLoading st); [discriminate|].
  cbn. intros [= <- <-]. split; reflexivity.
Qed.

(** C1 (what the code does). The user submits, presses Stop while the
    request is in flight, and the backend then answers with the comparisons
    [c :: rest]: the request settles as fulfilled, no controller was
    aborted, no message is shown, and [comparisonResult] is set to [c]. *)
Theorem stop_does_not_cancel (b : Axios.Bridge) (d : FormData)
    (c : ComparisonResult) (rest : list ComparisonResult) :
  exists i,
    submit_stop_settle b d (Fulfilled (c :: rest)) = Some i /\
    comparisonResult (state i) = Some c /\
    alerts i = [] /\
    controllers i = [false] /\
    isLoading (state i) = false.
Proof.
  unfold submit_stop_settle.
  destruct (click_submit b d (mounted initial_state)) as [[i1 p]|] eqn:Hs;
    [|discriminate Hs].
  destruct (click_stop_after_submit _ _ _ _ _ Hs) as [Hstop Hctl].
  assert (Hb : onSubmit_begin b 0 d (mounted initial_state) = Some (i1, p)) by exact Hs.
  cbn [mbind option_bind]. eexists. split; [reflexivity|].
  rewrite Hstop. unfold onSubmit_settle.
  rewrite (settle_is_network _ _ _ _ _ _ Hb).
  rewrite timer_effect_comparisonResult, timer_effect_alerts, timer_effect_controllers.
  cbn. rewrite Hctl. repeat split.
  - revert Hs. unfold click_submit. cbn. intros [= <- <-]. reflexivity.
  - unfold timer_effect. cbn.
    destruct (elapsedTime (state i1) =? 0); reflexivity.
Qed.

(** Had the request been rejected as canceled, the view would have shown
    the stop message and left [comparisonResult] empty. *)
Lemma canceled_request_is_reported (b : Axios.Bridge) (d : FormData) :
  exists i,
    submit_stop_settle b d (Rejected CanceledError) = Some i /\
    comparisonResult (state i) = None /\
    alerts i = [stopped_by_user].
Proof.
  unfold submit_stop_settle.
  destruct (click_submit b d (mounted initial_state)) as [[i1 p]|] eqn:Hs;
    [|discriminate Hs].
  destruct (click_stop_after_submit _ _ _ _ _ Hs) as [Hstop Hctl].
  assert (Hb : onSubmit_begin b 0 d (mounted initial_state) = Some (i1, p)) by exact Hs.
  cbn [mbind option_bind]. eexists. split; [reflexivity|].
  rewrite Hstop. unfold onSubmit_settle.
  rewrite (settle_is_network _ _ _ _ _ _ Hb).
  rewrite timer_effect_comparisonResult, timer_effect_alerts.
  revert Hs. unfold click_submit. cbn. intros [= <- <-]. split; reflexivity.
Qed.

(** ** The results section *)

Lemma labelled_lists_unfold (t : string) (children : list Element) :
  labelled_lists (El t children)
  = labelled_list (El t children) ++ flat_map labelled_lists children.
Proof.
  reflexivity.
Qed.

Lemma sentence_item_has_no_lists (array : list string) (index : Z) :
  labelled_lists (sentence_item array index) = [].
Proof.
  unfold sentence_item, child. destruct (at_index array index); reflexivity.
Qed.

Lemma items_have_no_lists (array : list string) (indices : list Z) :
  flat_map labelled_lists (map (sentence_item array) indices) = [].
Proof.
  induction indices as [|z l IH]; [reflexivity|].
  cbn [map flat_map]. rewrite sentence_item_has_no_lists, IH. reflexivity.
Qed.

Lemma ul_has_no_lists (array : list string) (indices : list Z) :
  labelled_lists (El "ul" (map (sentence_item array) indices)) = [].
Proof.
  rewrite labelled_lists_unfold, items_have_no_lists, app_nil_r.
  destruct indices as [|x [|y [|z l]]]; reflexivity.
Qed.

(** C7. With [right_article_extra_info_index = [0; 2]] and
    [right_article_array = ["a"; "b"; "c"]], whatever the left side holds,
    the only list under a Missing Information heading has exactly the two
    items [Sentence 1: "a"] and [Sentence 3: "c"]; with both index lists
    empty the results section shows the no-differences message and no
    list item. *)
Theorem results_section_rendering :
  (forall (left_array : list string) (left_index : list Z),
     let r := {| left_article_array := left_array;
                 right_article_array := ["a"; "b"; "c"];
                 left_article_missing_info_index := left_index;
                 right_article_extra_info_index := [0; 2] |} in
     List.filter is_missing_information (labelled_lists_of (render_results (Some r)))
     = [("Missing Information in Translation", [sentence "1" "a"; sentence "3" "c"])]) /\
  (forall (left_array right_array : list string),
     let r := {| left_article_array := left_array;
                 right_article_array := right_array;
                 left_article_missing_info_index := [];
                 right_article_extra_info_index := [] |} in
     render_results (Some r)
     = [El "div"
          [El "Separator" [];
           El "div"
             [El "h3" [Text "Comparison Results"];
              El "div" [Text "No significant differences found between the texts."]]]]
     /\ list_items_of (render_results (Some r)) = []
     /\ labelled_lists_of (render_results (Some r)) = []).
Proof.
  split.
  - intros left_array left_index r. subst r.
    unfold labelled_lists_of, render_results.
    cbn [left_article_array right_article_array left_article_missing_info_index
           right_article_extra_info_index].
    destruct left_index as [|z l].
    + reflexivity.
    + change (0 <? Z.of_nat (length (z :: l))) with true.
      change (0 <? Z.of_nat (length [0; 2])) with true.
      change (Z.of_nat (length [0; 2]) =? 0) with false.
      cbn [when andb app flat_map].
      rewrite !labelled_lists_unfold. cbn [flat_map].
      rewrite !labelled_lists_unfold. cbn [flat_map].
      rewrite !labelled_lists_unfold. cbn [flat_map].
      rewrite (ul_has_no_lists left_array (z :: l)).
      reflexivity.
  - intros left_array right_array r. subst r. repeat split.
Qed.

End ComparisonFacts.

(** ** The cross-page handoff *)

Section HandoffFacts.
Import Browser Home Translation.
Context `{Platform}.

Lemma handleCompare_browser (form : TranslationFormType) (found : bool) (a : App) :
  sessionStorage (browser (handleCompare form found a))
  = <["comparisonData" := handoff_of form]> (sessionStorage (browser a)) /\
  trace (browser (handleCompare form found a))
  = trace (browser a) ++ (if found then [Click_AI_COMPARISON] else [])
      ++ [SetItem "comparisonData"] /\
  phase (handleCompare form found a) = phase a /\
  comparisonSection (handleCompare form found a) = comparisonSection a /\
  pending_phase (handleCompare form found a)
  = (if found then Some AI_COMPARISON else pending_phase a).
Proof.
  destruct found; cbn; repeat split; try reflexivity.
  rewrite <- app_assoc. reflexivity.
Qed.

Lemma load_texts (h : Handoff.t) (st st' : Comparison.State) :
  Comparison.load h st = Normal st' ->
  Comparison.sourceText st' = Handoff.sourceContent h /\
  Comparison.targetText st' = Handoff.translatedContent h /\
  Comparison.form_sourceText st' = Handoff.sourceContent h /\
  Comparison.form_targetText st' = Handoff.translatedContent h.
Proof.
  unfold Comparison.load.
  destruct (Config.truthy_string (Handoff.sourceUrl h)); cbn.
  - destruct (Config.truthy_string (Handoff.targetLanguage h)); cbn.
    + destruct (URL_new (Handoff.sourceUrl h)); cbn; [|discriminate].
      intros [= <-]. repeat split.
    + intros [= <-]. repeat split.
  - intros [= <-]. repeat split.
Qed.

(** Mounting the view over a stored handoff reads it and removes it. *)
Lemma mount_with_handoff (w : Browser.t) (h : Handoff.t) (st' : Comparison.State) :
  sessionStorage w !! "comparisonData" = Some h ->
  Comparison.load h Comparison.initial_state = Normal st' ->
  Comparison.mount w
  = (Normal (Comparison.rerender
               (Comparison.set_state (fun _ => st')
                  (Comparison.mounted Comparison.initial_state))),
     removeItem "comparisonData" (emit (GetItem "comparisonData") w)).
Proof.
  intros Hw Hl. unfold Comparison.mount, Comparison.mount_effect, getItem.
  rewrite Hw. cbn [Comparison.mounted Comparison.state]. rewrite Hl. reflexivity.
Qed.

(** Mounting it over a storage without handoff changes nothing. *)
Lemma mount_without_handoff (w : Browser.t) :
  sessionStorage w !! "comparisonData" = None ->
  Comparison.mount w
  = (Normal (Comparison.mounted Comparison.initial_state),
     emit (GetItem "comparisonData") w).
Proof.
  intros Hw. unfold Comparison.mount, Comparison.mount_effect, getItem.
  rewrite Hw. reflexivity.
Qed.

(** When [new URL] rejects the stored source URL, the effect stops before
    [removeItem] and the handoff stays in the storage. *)
Lemma mount_with_invalid_url (w : Browser.t) (h : Handoff.t) :
  sessionStorage w !! "comparisonData" = Some h ->
  Config.truthy_string (Handoff.sourceUrl h) = true ->
  Config.truthy_string (Handoff.targetLanguage h) = true ->
  URL_new (Handoff.sourceUrl h) = None ->
  exists e w', Comparison.mount w = (Throw e, w') /\
               sessionStorage w' !! "comparisonData" = Some h.
Proof.
  intros Hw Hu Ht Hn. unfold Comparison.mount, Comparison.mount_effect, getItem.
  rewrite Hw. unfold Comparison.load. rewrite Hu, Ht, Hn. cbn.
  eexists. eexists. split; [reflexivity|]. exact Hw.
Qed.

(** Committing a pending navigation from the translation view to the
    comparison view mounts the view. *)
Lemma commit_enters_comparison (a : App) :
  uncaught a = None ->
  pending_phase a = Some AI_COMPARISON ->
  phase a = TRANSLATION ->
  commit a
  = match Comparison.mount (browser a) with
    | (Normal i, w) =>
        {| phase := AI_COMPARISON; pending_phase := None; browser := w;
           comparisonSection := Some i; uncaught := None |}
    | (Throw e, w) =>
        {| phase := AI_COMPARISON; pending_phase := None; browser := w;
           comparisonSection := None; uncaught := Some e |}
    end.
Proof. intros Hu Hq Hp. unfold commit. rewrite Hu, Hq, Hp. reflexivity. Qed.

Lemma commit_idle (a : App) : pending_phase a = None -> commit a = a.
Proof. intros Hq. unfold commit. rewrite Hq. destruct (uncaught a); reflexivity. Qed.

Lemma commit_same_phase (a : App) (p : Phase) :
  uncaught a = None ->
  pending_phase a = Some p ->
  phase a = p ->
  commit a = {| phase := p; pending_phase := None; browser := browser a;
                comparisonSection := comparisonSection a; uncaught := None |}.
Proof.
  intros Hu Hq Hp. unfold commit. rewrite Hu, Hq, Hp. destruct p; reflexivity.
Qed.

(** Entering the comparison view from the translation view, by the click of
    the user or by the pending click of [handleCompare]. *)
Lemma enter_comparison (a : App) :
  uncaught a = None ->
  phase a = TRANSLATION ->
  pending_phase a = None \/ pending_phase a = Some AI_COMPARISON ->
  navigate AI_COMPARISON (commit a)
  = match Comparison.mount (browser a) with
    | (Normal i, w) =>
        {| phase := AI_COMPARISON; pending_phase := None; browser := w;
           comparisonSection := Some i; uncaught := None |}
    | (Throw e, w) =>
        {| phase := AI_COMPARISON; pending_phase := None; browser := w;
           comparisonSection := None; uncaught := Some e |}
    end.
Proof.
  intros Hu Hp [Hq|Hq].
  - rewrite (commit_idle _ Hq). unfold navigate. rewrite Hu.
    rewrite (commit_enters_comparison (setPhase AI_COMPARISON a) Hu eq_refl Hp).
    reflexivity.
  - rewrite (commit_enters_comparison _ Hu Hq Hp).
    destruct (Comparison.mount (browser a)) as [[i|e] w]; reflexivity.
Qed.

(** In a document rendered by React the selector of [handleCompare] finds
    no button, so the handler clicks nothing. *)
Lemma querySelector_react_rendered (document : list Button) :
  react_rendered document -> querySelector document = None.
Proof.
  unfold react_rendered, querySelector. induction 1 as [|b l Hb _ IH]; [reflexivity|].
  cbn [List.find]. unfold matches_comparison_selector at 1. rewrite Hb. exact IH.
Qed.

Lemma handleCompare_in_react (document : list Button) (form : TranslationFormType)
    (a : App) :
  react_rendered document ->
  handleCompare_in document form a = handleCompare form false a.
Proof.
  intros Hd. unfold handleCompare_in. rewrite (querySelector_react_rendered _ Hd).
  reflexivity.
Qed.

Lemma react_renders_phase_buttons (current : Phase) :
  react_rendered (phase_buttons current).
Proof. repeat constructor. Qed.

(** The life of a handoff whose effect runs to the end, on a page rendered
    by React: it is written by [handleCompare], which triggers no navigation
    itself; the user then enters the comparison view, whose effect reads the
    handoff once and removes it; a second mount finds none. *)
Lemma handoff_deleted_when_effect_completes
    (document : list Button) (form : TranslationFormType) (w : Browser.t)
    (st' : Comparison.State) :
  react_rendered document ->
  Comparison.load (handoff_of form) Comparison.initial_state = Normal st' ->
  let a1 := handleCompare_in document form (translation_page w) in
  let a2 := navigate AI_COMPARISON a1 in
  let a3 := navigate AI_COMPARISON (navigate TRANSLATION a2) in
  (trace (browser a1) = trace w ++ [SetItem "comparisonData"] /\
   pending_phase a1 = None /\ comparisonSection a1 = None) /\
  ((exists i, comparisonSection a2 = Some i /\
              Comparison.sourceText (Comparison.state i) = sourceArticleContent form /\
              Comparison.targetText (Comparison.state i) = translatedArticleContent form) /\
   sessionStorage (browser a2) !! "comparisonData" = None /\
   trace (browser a2)
   = trace (browser a1) ++ [GetItem "comparisonData"; RemoveItem "comparisonData"]) /\
  (comparisonSection a3 = Some (Comparison.mounted Comparison.initial_state) /\
   sessionStorage (browser a3) !! "comparisonData" = None /\
   trace (browser a3) = trace (browser a2) ++ [GetItem "comparisonData"]).
Proof.
  intros Hd Hl. cbv zeta. rewrite (handleCompare_in_react _ _ _ Hd).
  destruct (handleCompare_browser form false (translation_page w))
    as (Hs & Ht & Hp & Hc & Hq).
  assert (Hw : sessionStorage (browser (handleCompare form false (translation_page w)))
               !! "comparisonData" = Some (handoff_of form))
    by (rewrite Hs; apply lookup_insert_eq).
  destruct (load_texts _ _ _ Hl) as (Hst & Htt & _).
  pose proof (enter_comparison (handleCompare form false (translation_page w))
                eq_refl Hp (or_introl Hq)) as He.
  rewrite (commit_idle _ Hq) in He. rewrite He, (mount_with_handoff _ _ _ Hw Hl).
  split; [|split].
  - split; [rewrite Ht; reflexivity | split; [exact Hq | exact Hc]].
  - split; [|split].
    + eexists. split; [reflexivity|]. split; assumption.
    + apply lookup_delete_eq.
    + cbn. rewrite <- app_assoc. reflexivity.
  - unfold navigate, setPhase, commit. cbn.
    rewrite lookup_delete_eq. cbn. repeat split.
    apply lookup_delete_eq.
Qed.

(** C8 (where the code departs from it). On a page rendered by React,
    [handleCompare] writes the handoff and triggers no navigation, so the
    write comes before the navigation of the user. If the source URL of the
    form is not a URL and the target language is not empty, the effect of
    the comparison view reads the handoff and throws at [new URL], before
    [removeItem]: the handoff is read but never deleted, no view is mounted,
    and the value is still in the session storage. *)
Theorem handoff_not_deleted_when_url_invalid
    (document : list Button) (form : TranslationFormType) (w : Browser.t) :
  react_rendered document ->
  Config.truthy_string (sourceArticleUrl form) = true ->
  Config.truthy_string (targetArticleLanguage form) = true ->
  URL_new (sourceArticleUrl form) = None ->
  let a1 := handleCompare_in document form (translation_page w) in
  let a2 := navigate AI_COMPARISON a1 in
  trace (browser a1) = trace w ++ [SetItem "comparisonData"] /\
  pending_phase a1 = None /\
  comparisonSection a2 = None /\
  uncaught a2 = Some "Invalid URL" /\
  trace (browser a2) = trace (browser a1) ++ [GetItem "comparisonData"] /\
  sessionStorage (browser a2) !! "comparisonData" = Some (handoff_of form).
Proof.
  intros Hd Hu Ht Hn. cbv zeta. rewrite (handleCompare_in_react _ _ _ Hd).
  destruct (handleCompare_browser form false (translation_page w))
    as (Hs & Htr & Hp & Hc & Hq).
  assert (Hw : sessionStorage (browser (handleCompare form false (translation_page w)))
               !! "comparisonData" = Some (handoff_of form))
    by (rewrite Hs; apply lookup_insert_eq).
  assert (Hl : Comparison.load (handoff_of form) Comparison.initial_state
               = Throw "Invalid URL").
  { unfold Comparison.load. cbn [handoff_of Handoff.sourceUrl Handoff.targetLanguage].
    rewrite Hu, Ht, Hn. reflexivity. }
  assert (Hm : Comparison.mount (browser (handleCompare form false (translation_page w)))
               = (Throw "Invalid URL",
                  emit (GetItem "comparisonData")
                    (browser (handleCompare form false (translation_page w))))).
  { unfold Comparison.mount, Comparison.mount_effect, getItem.
    rewrite Hw. cbn [Comparison.mounted Comparison.state]. rewrite Hl. reflexivity. }
  pose proof (enter_comparison (handleCompare form false (translation_page w))
                eq_refl Hp (or_introl Hq)) as He.
  rewrite (commit_idle _ Hq) in He. rewrite He, Hm.
  cbn [comparisonSection uncaught browser emit trace sessionStorage].
  rewrite Htr.
  repeat match goal with |- _ /\ _ => split end;
    try reflexivity; try assumption.
Qed.

End HandoffFacts.

Lemma handoff_not_deleted_when_url_invalid_witness :
  Browser.sessionStorage
    (Home.browser
       (@Home.navigate ExamplePlatform.platform Home.AI_COMPARISON
          (Translation.handleCompare_in (Home.phase_buttons Home.TRANSLATION)
             Translation.edited_form
             (Translation.translation_page Translation.empty_browser))))
  !! "comparisonData"
  = Some (Translation.handoff_of Translation.edited_form).
Proof.
  apply (@handoff_not_deleted_when_url_invalid ExamplePlatform.platform
           (Home.phase_buttons Home.TRANSLATION) Translation.edited_form
           Translation.empty_browser);
    [repeat constructor | reflexivity | reflexivity | reflexivity].
Defined.

Example encode_amp : Uri.encodeURIComponent "a&b" = "a%26b".
Proof. reflexivity. Qed.

Example translate_query_example :
  Services.query_of (Services.translateArticle Axios.NoBridge "New York" "zh/Hant")
  = Some "title=New York&language=zh%2FHant".
Proof. reflexivity. Qed.

Example fetch_query_example :
  Services.query_of (Services.fetchArticle Axios.NoBridge "https://en.wikipedia.org/wiki/A&B")
  = Some "query=https%3A%2F%2Fen.wikipedia.org%2Fwiki%2FA%26B".
Proof. reflexivity. Qed.

(** * Further properties of the code *)

(** ** Strings *)

Section StringFacts.

Lemma append_assoc (a b c : string) : (a +:+ b) +:+ c = a +:+ (b +:+ c).
Proof.
  induction a as [|x a IH]; [reflexivity|].
  change (String x ((a +:+ b) +:+ c) = String x (a +:+ (b +:+ c))).
  rewrite IH. reflexivity.
Qed.

Lemma append_nil_r (a : string) : a +:+ "" = a.
Proof.
  induction a as [|x a IH]; [reflexivity|].
  change (String x (a +:+ "") = String x a). rewrite IH. reflexivity.
Qed.

Lemma prefix_append (a b : string) : String.prefix a (a +:+ b) = true.
Proof.
  induction a as [|x a IH].
  - destruct b; reflexivity.
  - change (String.prefix (String x a) (String x (a +:+ b)) = true).
    cbn [String.prefix]. destruct (ascii_dec x x) as [_|N]; [exact IH | contradiction].
Qed.

Lemma count_char_append (c : ascii) (a b : string) :
  Uri.count_char c (a +:+ b) = (Uri.count_char c a + Uri.count_char c b)%nat.
Proof.
  induction a as [|x a IH]; [reflexivity|].
  change (Uri.count_char c (String x (a +:+ b))
          = (Uri.count_char c (String x a) + Uri.count_char c b)%nat).
  cbn [Uri.count_char]. rewrite IH. lia.
Qed.

Lemma count_char_absent (c : ascii) (s : string) :
  ~ In c (Uri.chars s) -> Uri.count_char c s = O.
Proof.
  induction s as [|x s IH]; cbn; [reflexivity|]. intros Hn.
  destruct (Ascii.eqb_spec x c) as [E|E].
  - exfalso. apply Hn. left. exact E.
  - rewrite IH; [reflexivity|]. intros Hin. apply Hn. right. exact Hin.
Qed.

End StringFacts.

(** ** The services, continued *)

Section MoreServiceFacts.
Import Uri Services.

Lemma encode_injective (s1 s2 : string) :
  encodeURIComponent s1 = encodeURIComponent s2 -> s1 = s2.
Proof.
  intros E. pose proof (decode_encode s1) as H1. rewrite E, decode_encode in H1.
  congruence.
Qed.

Lemma fetchArticle_query (b : Axios.Bridge) (url : string) :
  query_of (fetchArticle b url) = Some ("query=" +:+ encodeURIComponent url).
Proof.
  destruct (getAxiosInstance_total b) as (c & Hc & _).
  unfold fetchArticle. rewrite Hc. reflexivity.
Qed.

Lemma translateArticle_query (b : Axios.Bridge) (title language : string) :
  query_of (translateArticle b title language)
  = Some ("title=" +:+ title +:+ "&language=" +:+ encodeURIComponent language).
Proof.
  destruct (getAxiosInstance_total b) as (c & Hc & _).
  unfold translateArticle. rewrite Hc. reflexivity.
Qed.

(** X1. Two calls of [fetchArticle] with the same query string were given
    the same URL: the encoding loses nothing. *)
Theorem fetchArticle_query_injective (b : Axios.Bridge) (url1 url2 : string) :
  query_of (fetchArticle b url1) = query_of (fetchArticle b url2) ->
  url1 = url2.
Proof.
  rewrite !fetchArticle_query. cbn. intros [= E]. apply encode_injective, E.
Qed.

Lemma fetchArticle_query_injective_witness :
  "https://en.wikipedia.org/wiki/A&B" = "https://en.wikipedia.org/wiki/A&B".
Proof.
  apply (fetchArticle_query_injective Axios.NoBridge
           "https://en.wikipedia.org/wiki/A&B" "https://en.wikipedia.org/wiki/A&B").
  reflexivity.
Defined.

(** X2. The query string of [translateArticle] holds one [&] more than the
    title: the separator written by the serializer, plus every [&] of the
    title, which is passed on as it is; the language adds none. *)
Theorem translateArticle_separators (b : Axios.Bridge) (title language : string) :
  exists q,
    query_of (translateArticle b title language) = Some q /\
    count_char "&" q = S (count_char "&" title).
Proof.
  eexists. split; [apply translateArticle_query|].
  rewrite !count_char_append.
  rewrite (count_char_absent "&" (encodeURIComponent language))
    by (apply encode_has_no_raw; reflexivity).
  cbn. lia.
Qed.

End MoreServiceFacts.

(** ** Configuration, continued *)

Section MoreConfigFacts.
Import Config.

Lemma or_default_truthy {A} (truthy : A -> bool) (x : option A) (d : A) :
  truthy d = true -> truthy (or_default truthy x d) = true.
Proof.
  intros Hd. destruct x as [v|]; cbn; [|exact Hd].
  destruct (truthy v) eqn:Hv; [exact Hv | exact Hd].
Qed.

Lemma truthy_number_true (n : Z) : truthy_number n = true <-> n <> 0.
Proof. unfold truthy_number. destruct (Z.eqb_spec n 0); cbn; split; congruence. Qed.

Lemma truthy_string_true (s : string) : truthy_string s = true <-> s <> "".
Proof.
  unfold truthy_string. destruct (String.eqb_spec s ""); cbn; split; congruence.
Qed.

Lemma truthy_base_url (configData : File.AppConfig) :
  truthy_string (BACKEND_BASE_URL (build_constants configData)) = true.
Proof. apply or_default_truthy. reflexivity. Qed.

(** X3. Loading fails exactly for a file that cannot be read, is malformed
    or holds [null]: the error message gets the prefix of
    [initializeConstants] and then that of [grabConfig], and [createWindow]
    leaves the constants of the privileged process as they were. Every
    other file is loaded. *)
Theorem load_failure_is_wrapped (f : ConfigFile) :
  match f with
  | Parsed (JObject configData) =>
      initializeConstants f = Normal (build_constants configData) /\
      MainProcess.createWindow f MainProcess.initial
      = {| MainProcess.AppConstants := Some (build_constants configData) |}
  | _ =>
      exists e,
        initializeConstants f = Throw ("Failed to initialize AppConstants: " +:+ e) /\
        MainProcess.grabConfig f
        = Throw ("Failed to load the configuration file: "
                 +:+ "Failed to initialize AppConstants: " +:+ e) /\
        forall st, MainProcess.createWindow f st = st
  end.
Proof.
  destruct f as [m | m | [|configData]]; cbn.
  - exists m. repeat split.
  - exists m. repeat split.
  - eexists. repeat split.
  - split; reflexivity.
Qed.

(** X4. No constant of a loaded configuration is falsy: the ports and the
    timeout are not 0, the threshold is not 0, the two URLs are not
    empty. *)
Theorem constants_are_truthy (configData : File.AppConfig) :
  exists r,
    initializeConstants (Parsed (JObject configData)) = Normal r /\
    BACKEND_PORT r <> 0 /\ FRONTEND_PORT r <> 0 /\ DEFAULT_TIMEOUT r <> 0 /\
    Qnum (SIMILARITY_THRESHOLD r) <> 0 /\
    BACKEND_BASE_URL r <> "" /\ OLLAMA_BASE_URL r <> "".
Proof.
  exists (build_constants configData). split; [reflexivity|].
  unfold build_constants; cbn [BACKEND_PORT FRONTEND_PORT DEFAULT_TIMEOUT
                                 SIMILARITY_THRESHOLD BACKEND_BASE_URL OLLAMA_BASE_URL].
  repeat split.
  - apply truthy_number_true, or_default_truthy. reflexivity.
  - apply truthy_number_true, or_default_truthy. reflexivity.
  - apply truthy_number_true, or_default_truthy. reflexivity.
  - intros Hq. apply truthy_rational_false in Hq.
    rewrite or_default_truthy in Hq by reflexivity. discriminate.
  - apply truthy_string_true, or_default_truthy. reflexivity.
  - apply truthy_string_true, or_default_truthy. reflexivity.
Qed.

(** X5. A file that gives every key a truthy value is taken over as it is:
    no default replaces a value. *)
Theorem complete_config_is_kept
    (url ollama : string) (port fport tmo : Z) (thr : Q) :
  url <> "" -> ollama <> "" -> port <> 0 -> fport <> 0 -> tmo <> 0 -> Qnum thr <> 0 ->
  initializeConstants
    (Parsed (JObject {| File.BACKEND_BASE_URL := Some url; File.BACKEND_PORT := Some port;
                        File.FRONTEND_PORT := Some fport;
                        File.OLLAMA_BASE_URL := Some ollama;
                        File.DEFAULT_TIMEOUT := Some tmo;
                        File.SIMILARITY_THRESHOLD := Some thr |}))
  = Normal {| BACKEND_BASE_URL := url; BACKEND_PORT := port; FRONTEND_PORT := fport;
              OLLAMA_BASE_URL := ollama; DEFAULT_TIMEOUT := tmo;
              SIMILARITY_THRESHOLD := thr |}.
Proof.
  intros Hu Ho Hp Hf Ht Hq. cbn. unfold build_constants. cbn.
  apply truthy_string_true in Hu, Ho. apply truthy_number_true in Hp, Hf, Ht.
  assert (Hq' : truthy_rational thr = true).
  { destruct (truthy_rational thr) eqn:E; [reflexivity|].
    apply truthy_rational_false in E. contradiction. }
  rewrite Hu, Ho, Hp, Hf, Ht, Hq'. reflexivity.
Qed.

Lemma complete_config_is_kept_witness :
  initializeConstants
    (Parsed (JObject {| File.BACKEND_BASE_URL := Some "http://10.0.0.5:9000";
                        File.BACKEND_PORT := Some 9000;
                        File.FRONTEND_PORT := Some 3000;
                        File.OLLAMA_BASE_URL := Some "http://10.0.0.5:11434";
                        File.DEFAULT_TIMEOUT := Some 5000;
                        File.SIMILARITY_THRESHOLD := Some 0.8%Q |}))
  = Normal {| BACKEND_BASE_URL := "http://10.0.0.5:9000"; BACKEND_PORT := 9000;
              FRONTEND_PORT := 3000; OLLAMA_BASE_URL := "http://10.0.0.5:11434";
              DEFAULT_TIMEOUT := 5000; SIMILARITY_THRESHOLD := 0.8%Q |}.
Proof.
  apply (complete_config_is_kept "http://10.0.0.5:9000" "http://10.0.0.5:11434"
           9000 3000 5000 0.8%Q); discriminate.
Defined.

End MoreConfigFacts.

(** ** From the configuration file to the client *)

Section StartupFacts.
Import MainProcess Axios.

Lemma createWindow_loaded (configData : Config.File.AppConfig) (st : State) :
  createWindow (Config.Parsed (Config.JObject configData)) st
  = {| AppConstants := Some (Config.build_constants configData) |}.
Proof. reflexivity. Qed.

Lemma getAxiosInstance_loaded (configData : Config.File.AppConfig) :
  getAxiosInstance
    (bridge_of (createWindow (Config.Parsed (Config.JObject configData)) initial))
  = Normal (create (Config.BACKEND_BASE_URL (Config.build_constants configData)) 30000).
Proof.
  rewrite createWindow_loaded. unfold getAxiosInstance.
  cbn [bridge_of get_app_config AppConstants getAppConfig cbind].
  rewrite truthy_base_url. reflexivity.
Qed.

(** X6. The configuration that was loaded on start is the one the HTTP
    client is bound to: for every configuration file that parses to an
    object, after [createWindow] the client's base URL is the resolved
    [BACKEND_BASE_URL]. That is the URL of the file when the file has a
    non-empty one; when the file has none, or an empty one, it is
    http://127.0.0.1: followed by the resolved port, and the resolved port
    is the port of the file when that is not 0 and 8000 otherwise. *)
Theorem loaded_config_reaches_client (configData : Config.File.AppConfig) :
  exists r,
    Config.initializeConstants (Config.Parsed (Config.JObject configData)) = Normal r /\
    getAxiosInstance
      (bridge_of (createWindow (Config.Parsed (Config.JObject configData)) initial))
    = Normal {| baseURL := Config.BACKEND_BASE_URL r; timeout := 30000 |} /\
    (forall url, Config.File.BACKEND_BASE_URL configData = Some url -> url <> "" ->
       Config.BACKEND_BASE_URL r = url) /\
    (Config.File.BACKEND_BASE_URL configData = None ->
       Config.BACKEND_BASE_URL r
       = "http://127.0.0.1:" +:+ Number_toString (Config.BACKEND_PORT r)) /\
    (Config.File.BACKEND_BASE_URL configData = Some "" ->
       Config.BACKEND_BASE_URL r
       = "http://127.0.0.1:" +:+ Number_toString (Config.BACKEND_PORT r)) /\
    (forall port, Config.File.BACKEND_PORT configData = Some port -> port <> 0 ->
       Config.BACKEND_PORT r = port) /\
    (Config.File.BACKEND_PORT configData = None \/
     Config.File.BACKEND_PORT configData = Some 0 ->
       Config.BACKEND_PORT r = 8000).
Proof.
  exists (Config.build_constants configData).
  split; [reflexivity|]. split; [apply getAxiosInstance_loaded|].
  unfold Config.build_constants. cbn [Config.BACKEND_BASE_URL Config.BACKEND_PORT].
  repeat match goal with |- _ /\ _ => split end.
  - intros url -> Hu. apply truthy_string_true in Hu. cbn. rewrite Hu. reflexivity.
  - intros ->. reflexivity.
  - intros ->. reflexivity.
  - intros port -> Hp. apply truthy_number_true in Hp. cbn. rewrite Hp. reflexivity.
  - intros [-> | ->]; reflexivity.
Qed.

(** X7. [createWindow] starts the backend exactly when the configuration
    loads: then, if [exec] and [execFile] do not throw, it runs the port
    kill, [pkill] and the launch in this order, however the two kill
    commands end; when loading fails it starts nothing. *)
Theorem createWindow_launches_iff_loaded
    (f : Config.ConfigFile) (os : OS) (backendDir : string) (kill_port_result : ChildResult) :
  exec_throws os = None ->
  execFile_throws os = None ->
  createWindow_commands f os backendDir kill_port_result
  = match Config.initializeConstants f with
    | Normal _ => [KillPort8000; PkillBackend; LaunchBackend uvicorn_args backendDir]
    | Throw _ => []
    end.
Proof.
  intros He Hf.
  unfold createWindow_commands, after_kill_port, after_pkill, grabConfig,
    exec_call, execFile_call.
  rewrite He, Hf. destruct (Config.initializeConstants f); reflexivity.
Qed.

Lemma createWindow_launches_iff_loaded_witness :
  createWindow_commands (Config.Parsed (Config.JObject Config.empty_config)) failing_os
    "../symmetry-unified-backend"
    {| child_error := Some "Command failed"; stdout := ""; stderr := "" |}
  = [KillPort8000; PkillBackend;
     LaunchBackend uvicorn_args "../symmetry-unified-backend"] /\
  createWindow_commands (Config.Unreadable "ENOENT") failing_os
    "../symmetry-unified-backend"
    {| child_error := None; stdout := ""; stderr := "" |}
  = [].
Proof.
  split.
  - apply (createWindow_launches_iff_loaded
             (Config.Parsed (Config.JObject Config.empty_config)) failing_os
             "../symmetry-unified-backend"
             {| child_error := Some "Command failed"; stdout := ""; stderr := "" |});
      reflexivity.
  - apply (createWindow_launches_iff_loaded (Config.Unreadable "ENOENT") failing_os
             "../symmetry-unified-backend"
             {| child_error := None; stdout := ""; stderr := "" |});
      reflexivity.
Defined.

(** X8. A configured backend port moves the client but not the backend:
    with [BACKEND_PORT] set to [port] and no base URL in the file, the
    client is bound to http://127.0.0.1:[port], while the backend is
    launched with [--port 8000]. *)
Theorem configured_port_moves_only_the_client
    (port : Z) (configData : Config.File.AppConfig) (os : OS) (backendDir : string)
    (kill_port_result : ChildResult) :
  port <> 0 ->
  Config.File.BACKEND_PORT configData = Some port ->
  Config.File.BACKEND_BASE_URL configData = None ->
  exec_throws os = None ->
  execFile_throws os = None ->
  getAxiosInstance
    (bridge_of (createWindow (Config.Parsed (Config.JObject configData)) initial))
  = Normal {| baseURL := "http://127.0.0.1:" +:+ Number_toString port; timeout := 30000 |} /\
  createWindow_commands (Config.Parsed (Config.JObject configData)) os backendDir
    kill_port_result
  = [KillPort8000; PkillBackend;
     LaunchBackend ["-m"; "uvicorn"; "app.main:app"; "--host"; "127.0.0.1"; "--port"; "8000"]
       backendDir].
Proof.
  intros Hp Hport Hurl He Hf. split.
  - rewrite getAxiosInstance_loaded. unfold Config.build_constants.
    cbn [Config.BACKEND_BASE_URL]. rewrite Hurl, Hport.
    apply truthy_number_true in Hp. cbn. rewrite Hp. reflexivity.
  - unfold createWindow_commands, after_kill_port, after_pkill, exec_call, execFile_call.
    rewrite He, Hf. reflexivity.
Qed.

Lemma configured_port_moves_only_the_client_witness :
  getAxiosInstance
    (bridge_of
       (createWindow
          (Config.Parsed
             (Config.JObject
                {| Config.File.BACKEND_BASE_URL := None;
                   Config.File.BACKEND_PORT := Some 9000;
                   Config.File.FRONTEND_PORT := None;
                   Config.File.OLLAMA_BASE_URL := None;
                   Config.File.DEFAULT_TIMEOUT := None;
                   Config.File.SIMILARITY_THRESHOLD := None |}))
          initial))
  = Normal {| baseURL := "http://127.0.0.1:9000"; timeout := 30000 |}.
Proof.
  apply (configured_port_moves_only_the_client 9000
           {| Config.File.BACKEND_BASE_URL := None;
              Config.File.BACKEND_PORT := Some 9000;
              Config.File.FRONTEND_PORT := None;
              Config.File.OLLAMA_BASE_URL := None;
              Config.File.DEFAULT_TIMEOUT := None;
              Config.File.SIMILARITY_THRESHOLD := None |}
           failing_os ""
           {| child_error := None; stdout := ""; stderr := "" |});
    try reflexivity. discriminate.
Defined.

(** X9. The two ways to a configured client agree on the request defaults
    and differ in the interceptors: unless the constants carry an empty
    base URL, the instance returned by [getAxiosInstance] has the base URL
    and the timeout that [updateAxiosInstance] leaves in the module-level
    instance; the module-level instance keeps its two logging interceptors
    through the update, which no instance of [getAxiosInstance] has. *)
Theorem update_agrees_with_getAxiosInstance (b : Bridge) :
  (forall c, b = InvokeResolves (Some c) -> Config.BACKEND_BASE_URL c <> "") ->
  getAxiosInstance b = Normal (defaults (updateAxiosInstance b axiosInstance)) /\
  timeout (defaults (updateAxiosInstance b axiosInstance)) = 30000 /\
  request_interceptors (updateAxiosInstance b axiosInstance) = 1%nat /\
  response_interceptors (updateAxiosInstance b axiosInstance) = 1%nat /\
  (forall i, getAxiosInstance b = Normal i ->
     created i <> updateAxiosInstance b axiosInstance).
Proof.
  intros Hb. unfold getAxiosInstance, updateAxiosInstance.
  destruct b as [| m | [c|]]; cbn;
    repeat match goal with |- _ /\ _ => split end;
    try reflexivity; try (intros i _; discriminate).
  specialize (Hb c eq_refl). apply truthy_string_true in Hb. rewrite Hb. reflexivity.
Qed.

Lemma update_agrees_with_getAxiosInstance_witness :
  getAxiosInstance
    (bridge_of
       (createWindow (Config.Parsed (Config.JObject Config.port_only_config)) initial))
  = Normal {| baseURL := "http://127.0.0.1:9000"; timeout := 30000 |} /\
  updateAxiosInstance
    (bridge_of
       (createWindow (Config.Parsed (Config.JObject Config.port_only_config)) initial))
    axiosInstance
  = {| defaults := {| baseURL := "http://127.0.0.1:9000"; timeout := 30000 |};
       request_interceptors := 1; response_interceptors := 1 |}.
Proof.
  split.
  - apply (update_agrees_with_getAxiosInstance
             (bridge_of
                (createWindow (Config.Parsed (Config.JObject Config.port_only_config))
                   initial))).
    intros c [= <-]. discriminate.
  - reflexivity.
Defined.

(** X10. The start-backend handler never rejects. Its reply says success
    exactly when neither [exec] nor [execFile] threw, and otherwise carries
    the message of the exception that was thrown first. *)
Theorem start_backend_reply (os : OS) :
  exists r,
    reply (invoke_start_backend os) = Normal r /\
    (success r = true <-> exec_throws os = None /\ execFile_throws os = None) /\
    (forall e, exec_throws os = Some e -> r = {| success := false; error := Some e |}) /\
    (forall e, exec_throws os = None -> execFile_throws os = Some e ->
       r = {| success := false; error := Some e |}).
Proof.
  unfold invoke_start_backend, start_backend_handler, exec_call, execFile_call.
  cbn [reply].
  destruct (exec_throws os) as [e1|]; cbn.
  - eexists. split; [reflexivity|]. cbn. repeat split; try congruence.
    intros [H _]. discriminate.
  - destruct (execFile_throws os) as [e2|]; cbn.
    + eexists. split; [reflexivity|]. cbn. repeat split; try congruence.
      intros [_ H]. discriminate.
    + eexists. split; [reflexivity|]. cbn. repeat split; congruence.
Qed.

End StartupFacts.

(** ** Starting the backend from the translation view *)

Section StartBackendFacts.
Import MainProcess Translation.

(** X11. A backend that fails to start is not reported to the user: when
    the handler is reached and nothing throws synchronously, [startBackend]
    shows no message, schedules one status check and clears the starting
    flag, however the backend child ends. *)
Theorem child_failure_is_not_reported (os : OS) (c : Control) :
  backendStatus c <> online ->
  exec_throws os = None ->
  execFile_throws os = None ->
  shown (startBackend (StartInvoke os) c) = shown c /\
  scheduled_checks (startBackend (StartInvoke os) c) = S (scheduled_checks c) /\
  isBackendStarting (startBackend (StartInvoke os) c) = false.
Proof.
  intros Hs He Hf. unfold startBackend, invoke_startBackend, invoke_start_backend,
    start_backend_handler, exec_call, execFile_call.
  rewrite He, Hf. destruct (backendStatus c); [|contradiction|]; cbn; repeat split.
Qed.

Lemma child_failure_is_not_reported_witness :
  shown (startBackend (StartInvoke failing_os)
           {| backendStatus := offline; isBackendStarting := false; shown := [];
              scheduled_checks := 0 |})
  = [].
Proof.
  apply (child_failure_is_not_reported failing_os
           {| backendStatus := offline; isBackendStarting := false; shown := [];
              scheduled_checks := 0 |});
    try reflexivity. discriminate.
Defined.

(** X12. What [startBackend] does show: nothing at all when the backend is
    online; the message of a synchronous exception of the handler; and the
    generic message when the bridge call itself throws. In every case the
    starting flag ends cleared or untouched. *)
Theorem startBackend_messages (sb : StartBridge) (c : Control) :
  (backendStatus c = online -> startBackend sb c = c) /\
  (backendStatus c <> online ->
   isBackendStarting (startBackend sb c) = false /\
   backendStatus (startBackend sb c) = backendStatus c /\
   match sb with
   | NoStartBridge =>
       shown (startBackend sb c)
       = shown c ++ ["Failed to start backend. Please check the logs."]
   | StartInvoke os =>
       forall e,
         (exec_throws os = Some e \/
          (exec_throws os = None /\ execFile_throws os = Some e)) ->
         shown (startBackend sb c) = shown c ++ ["Failed to start backend: " +:+ e] /\
         scheduled_checks (startBackend sb c) = scheduled_checks c
   end).
Proof.
  split.
  - intros Hs. unfold startBackend. rewrite Hs. reflexivity.
  - intros Hs. unfold startBackend.
    destruct (backendStatus c) eqn:Hb; [|contradiction|].
    + destruct sb as [|os]; cbn.
      * repeat split; assumption.
      * unfold invoke_start_backend, start_backend_handler, exec_call, execFile_call.
        cbn [reply].
        destruct (exec_throws os) as [e1|]; [|destruct (execFile_throws os) as [e2|]];
          cbn; (split; [reflexivity|]); (split; [assumption|]);
          intros e [H|[H1 H2]]; try discriminate;
          try (injection H as <-); try (injection H2 as <-); split; reflexivity.
    + destruct sb as [|os]; cbn.
      * repeat split; assumption.
      * unfold invoke_start_backend, start_backend_handler, exec_call, execFile_call.
        cbn [reply].
        destruct (exec_throws os) as [e1|]; [|destruct (execFile_throws os) as [e2|]];
          cbn; (split; [reflexivity|]); (split; [assumption|]);
          intros e [H|[H1 H2]]; try discriminate;
          try (injection H as <-); try (injection H2 as <-); split; reflexivity.
Qed.

End StartBackendFacts.

(** ** The comparison view, continued *)

Section MoreComparisonFacts.
Import Comparison.

Lemma status_is_exclusive (e : AxiosError) (n m : Z) :
  status_is e n = true -> n <> m -> status_is e m = false.
Proof.
  unfold status_is. destruct (response e) as [r|]; [|discriminate].
  intros Hn Hnm. apply Z.eqb_eq in Hn. apply Z.eqb_neq. congruence.
Qed.

(** X13. A 404 answer, however detailed, is reported with a message that
    starts with [Comparison endpoint not found (404).], provided the error
    is not a timeout or a cancellation, which are checked first. *)
Theorem not_found_is_reported (elapsed : Z) (e : AxiosError) :
  code_is e "ECONNABORTED" = false ->
  code_is e "ERR_CANCELED" = false ->
  status_is e 404 = true ->
  String.prefix "Comparison endpoint not found (404)." (errorMessage elapsed e) = true.
Proof.
  intros H1 H2 H3. unfold errorMessage. rewrite H1, H2, H3.
  rewrite (status_is_exclusive e 404 400 H3) by discriminate.
  change ("Comparison endpoint not found (404). "
          +:+ or_text (response_detail e) "Please check that the backend server is running.")
    with ("Comparison endpoint not found (404)."
          +:+ (" " +:+ or_text (response_detail e)
                         "Please check that the backend server is running.")).
  apply prefix_append.
Qed.

Lemma not_found_is_reported_witness :
  String.prefix "Comparison endpoint not found (404)."
    (errorMessage 0
       {| code := Some "ERR_BAD_REQUEST";
          response := Some {| status := 404; detail := Some "Not Found" |};
          message := "Request failed with status code 404" |})
  = true.
Proof.
  apply (not_found_is_reported 0
           {| code := Some "ERR_BAD_REQUEST";
              response := Some {| status := 404; detail := Some "Not Found" |};
              message := "Request failed with status code 404" |});
    reflexivity.
Defined.

Lemma timer_effect_idle (i : Instance) :
  isRunning (state i) = false ->
  isLoading (state (timer_effect i)) = isLoading (state i) /\
  isRunning (state (timer_effect i)) = false /\
  elapsedTime (state (timer_effect i)) = 0.
Proof.
  intros Hr. unfold timer_effect. rewrite Hr.
  destruct (Z.eqb_spec (elapsedTime (state i)) 0) as [E|E]; cbn; auto.
Qed.

Lemma onSubmit_settle_idle (p : Pending) (net : Settled) (i : Instance) :
  isLoading (state (onSubmit_settle p net i)) = false /\
  isRunning (state (onSubmit_settle p net i)) = false /\
  elapsedTime (state (onSubmit_settle p net i)) = 0.
Proof.
  unfold onSubmit_settle.
  match goal with |- context [timer_effect ?x] =>
    destruct (timer_effect_idle x) as (Hl & Hr & He) end.
  - destruct (settle p net i); reflexivity.
  - rewrite Hl, Hr, He. repeat split.
Qed.

(** X14. Whatever the outcome of the request, [onSubmit] ends with the view
    idle: not loading, not running, the elapsed-time counter back at 0; it
    has shown at most one message and has aborted nothing. *)
Theorem onSubmit_ends_idle (p : Pending) (net : Settled) (i : Instance) :
  let i' := onSubmit_settle p net i in
  isLoading (state i') = false /\
  isRunning (state i') = false /\
  elapsedTime (state i') = 0 /\
  controllers i' = controllers i /\
  (alerts i' = alerts i \/ exists m, alerts i' = alerts i ++ [m]).
Proof.
  cbv zeta. destruct (onSubmit_settle_idle p net i) as (Hl & Hr & He).
  split; [exact Hl|]. split; [exact Hr|]. split; [exact He|].
  unfold onSubmit_settle. rewrite timer_effect_controllers, timer_effect_alerts. cbn.
  destruct (settle p net i) as [comparisons|e]; cbn.
  - split; [reflexivity | left; reflexivity].
  - split; [reflexivity | right; eexists; reflexivity].
Qed.

(** X15. A submission discards the result on display even when the request
    then fails: after the failure [comparisonResult] is empty, exactly one
    message was shown, and the view is idle again. *)
Theorem failed_submit_discards_result
    (b : Axios.Bridge) (d : FormData) (i i1 : Instance) (p : Pending) (e : AxiosError) :
  click_submit b d i = Some (i1, p) ->
  comparisonResult (state (onSubmit_settle p (Rejected e) i1)) = None /\
  alerts (onSubmit_settle p (Rejected e) i1)
  = alerts i ++ [errorMessage (owner_elapsedTime p) e] /\
  isLoading (state (onSubmit_settle p (Rejected e) i1)) = false.
Proof.
  intros Hs. unfold click_submit in Hs.
  destruct (isLoading (state i)); [discriminate|].
  pose proof (settle_is_network _ _ _ _ _ _ Hs) as Hn.
  unfold onSubmit_begin in Hs.
  destruct (renders i !! current_render i) as [rd|]; [|discriminate].
  cbn in Hs. injection Hs as <- <-.
  unfold onSubmit_settle. rewrite Hn.
  rewrite timer_effect_comparisonResult, timer_effect_alerts.
  repeat split.
  match goal with |- context [timer_effect ?x] =>
    destruct (timer_effect_idle x) as (Hl & _); [reflexivity|rewrite Hl; reflexivity] end.
Qed.

Lemma failed_submit_discards_result_witness :
  exists i1 p,
    click_submit Axios.NoBridge {| data_sourceText := "a"; data_targetText := "b" |}
      (mounted (setComparisonResult
                  (Some {| left_article_array := ["x"]; right_article_array := ["y"];
                           left_article_missing_info_index := [0];
                           right_article_extra_info_index := [] |})
                  initial_state))
    = Some (i1, p) /\
    comparisonResult (state (onSubmit_settle p (Rejected timeout_error) i1)) = None.
Proof.
  eexists. eexists. split; [reflexivity|].
  apply (failed_submit_discards_result Axios.NoBridge
           {| data_sourceText := "a"; data_targetText := "b" |}
           (mounted (setComparisonResult
                       (Some {| left_article_array := ["x"]; right_article_array := ["y"];
                                left_article_missing_info_index := [0];
                                right_article_extra_info_index := [] |})
                       initial_state))
           _ _ timeout_error eq_refl).
Defined.

End MoreComparisonFacts.

(** ** Sessions of the comparison view *)

Section SessionFacts.
Import Comparison.

Lemma latest_render_rerender (i : Instance) :
  renders (rerender i) !! current_render (rerender i)
  = Some {| captured := state (rerender i); abortController := None |}.
Proof.
  unfold current_render, rerender. cbn [renders state].
  rewrite length_app. cbn [length]. rewrite Nat.add_1_r. cbn [pred].
  apply list_lookup_middle. reflexivity.
Qed.

Lemma latest_render_timer_effect (i : Instance) :
  renders (timer_effect (rerender i)) !! current_render (timer_effect (rerender i))
  = Some {| captured := state (timer_effect (rerender i)); abortController := None |}.
Proof.
  unfold timer_effect.
  destruct (isRunning (state (rerender i))); [apply latest_render_rerender|].
  destruct (elapsedTime (state (rerender i)) =? 0); apply latest_render_rerender.
Qed.

Lemma well_formed_opened (st : State) :
  isLoading st = false -> isRunning st = false -> elapsedTime st = 0 ->
  well_formed (opened st).
Proof.
  intros Hl Hr He. unfold well_formed, opened. cbn.
  repeat split; auto; discriminate.
Qed.

Lemma click_stop_well_formed (s : Session) :
  well_formed s -> click_stop (instance s) = instance s.
Proof.
  intros (_ & Hlast & _). unfold click_stop, onStopComparison.
  destruct (isLoading (state (instance s))); [|reflexivity].
  rewrite Hlast. reflexivity.
Qed.

Lemma step_well_formed (b : Axios.Bridge) (s : Session) (a : Action) :
  well_formed s -> well_formed (step b s a).
Proof.
  intros Hwf. pose proof Hwf as (Hc & Hlast & Hl & Hr & Hx & He & Hp).
  destruct a as [d | | | net | url | r]; cbn [step].
  - (* Submit *)
    unfold click_submit. destruct (isLoading (state (instance s))) eqn:Hload; [exact Hwf|].
    unfold onSubmit_begin. rewrite Hlast. cbn [mbind option_bind].
    symmetry in Hl. apply orb_false_elim in Hl as [Hpn Hfn].
    rewrite Hpn in Hr.
    unfold well_formed. cbn [instance pending fetching].
    split; [|split; [|split; [|split; [|split; [|split]]]]].
    + cbn. apply Forall_app. split; [exact Hc | repeat constructor].
    + apply latest_render_rerender.
    + reflexivity.
    + reflexivity.
    + cbn. exact Hfn.
    + cbn. discriminate.
    + intros p [= <-]. cbn [owner_elapsedTime request captured]. split.
      * apply He, Hr.
      * apply compareArticles_has_no_signal.
  - (* Stop *)
    rewrite (click_stop_well_formed s Hwf). destruct s; exact Hwf.
  - (* Tick *)
    unfold tick. destruct (isRunning (state (instance s))) eqn:Hrun.
    + unfold well_formed. cbn [instance pending fetching].
      split; [|split; [|split; [|split; [|split; [|split]]]]].
      * exact Hc.
      * apply latest_render_rerender.
      * exact Hl.
      * cbn. rewrite Hrun. exact Hr.
      * exact Hx.
      * cbn. rewrite Hrun. discriminate.
      * exact Hp.
    + destruct s; exact Hwf.
  - (* Settle *)
    destruct (pending s) as [p|] eqn:Hpend; [|exact Hwf].
    cbn in Hx. destruct (onSubmit_settle_idle p net (instance s)) as (Il & Ir & Ie).
    unfold well_formed. cbn [instance pending fetching].
    split; [|split; [|split; [|split; [|split; [|split]]]]].
    + unfold onSubmit_settle. rewrite timer_effect_controllers. cbn.
      destruct (settle p net (instance s)); exact Hc.
    + unfold onSubmit_settle. apply latest_render_timer_effect.
    + rewrite Il, Hx. reflexivity.
    + rewrite Ir. reflexivity.
    + reflexivity.
    + intros _. exact Ie.
    + discriminate.
  - (* Fetch *)
    destruct (isLoading (state (instance s))) eqn:Hload; [exact Hwf|].
    destruct (Config.truthy_string url); [|exact Hwf].
    symmetry in Hl. apply orb_false_elim in Hl as [Hpn Hfn].
    unfold well_formed. cbn [instance pending fetching fetchFromUrl_begin fst].
    split; [|split; [|split; [|split; [|split; [|split]]]]].
    + exact Hc.
    + apply latest_render_rerender.
    + cbn. rewrite orb_true_r. reflexivity.
    + exact Hr.
    + rewrite Hpn. reflexivity.
    + exact He.
    + exact Hp.
  - (* FetchSettle *)
    destruct (fetching s) as [url|] eqn:Hfetch; [|exact Hwf].
    cbn in Hx. rewrite andb_true_r in Hx.
    unfold well_formed. cbn [instance pending fetching].
    unfold fetchFromUrl_settle.
    split; [|split; [|split; [|split; [|split; [|split]]]]].
    + destruct r; exact Hc.
    + apply latest_render_rerender.
    + cbn. rewrite Hx. reflexivity.
    + destruct r; exact Hr.
    + apply andb_false_r.
    + destruct r; exact He.
    + exact Hp.
Qed.

Lemma run_well_formed (b : Axios.Bridge) (actions : list Action) (s : Session) :
  well_formed s -> well_formed (run b s actions).
Proof.
  revert s. induction actions as [|a actions IH]; intros s Hwf; [exact Hwf|].
  cbn [run fold_left]. apply IH, step_well_formed, Hwf.
Qed.

(** X16. Whatever the user and the network do, no [AbortController] is ever
    aborted, and pressing Stop changes nothing at all. *)
Theorem stop_never_aborts (b : Axios.Bridge) (s : Session) (actions : list Action) :
  well_formed s ->
  Forall (fun aborted => aborted = false) (controllers (instance (run b s actions))) /\
  step b (run b s actions) Stop = run b s actions.
Proof.
  intros Hwf. pose proof (run_well_formed b actions s Hwf) as Hrun. split.
  - apply Hrun.
  - cbn [step]. rewrite (click_stop_well_formed _ Hrun).
    destruct (run b s actions); reflexivity.
Qed.

Lemma stop_never_aborts_witness :
  Forall (fun aborted => aborted = false)
    (controllers
       (instance
          (run Axios.NoBridge (opened initial_state)
             [Submit {| data_sourceText := "a"; data_targetText := "b" |};
              Tick; Stop; Tick]))).
Proof.
  apply (stop_never_aborts Axios.NoBridge (opened initial_state)
           [Submit {| data_sourceText := "a"; data_targetText := "b" |}; Tick; Stop; Tick]).
  apply well_formed_opened; reflexivity.
Defined.

(** X17. In every session the loading flag is set exactly while a request is
    in flight, the running flag exactly while a compare request is, and a
    compare request and a fetch are never in flight together. *)
Theorem loading_means_request_in_flight
    (b : Axios.Bridge) (s : Session) (actions : list Action) :
  well_formed s ->
  let s' := run b s actions in
  isLoading (state (instance s')) = is_some (pending s') || is_some (fetching s') /\
  isRunning (state (instance s')) = is_some (pending s') /\
  is_some (pending s') && is_some (fetching s') = false.
Proof.
  intros Hwf. destruct (run_well_formed b actions s Hwf) as (_ & _ & Hl & Hr & Hx & _).
  cbv zeta. auto.
Qed.

Lemma loading_means_request_in_flight_witness :
  isLoading
    (state
       (instance
          (run Axios.NoBridge (opened initial_state)
             [Fetch "https://en.wikipedia.org/wiki/A";
              Submit {| data_sourceText := "a"; data_targetText := "b" |};
              FetchSettle FetchRejected])))
  = false.
Proof.
  destruct (loading_means_request_in_flight Axios.NoBridge (opened initial_state)
              [Fetch "https://en.wikipedia.org/wiki/A";
               Submit {| data_sourceText := "a"; data_targetText := "b" |};
               FetchSettle FetchRejected]
              (well_formed_opened initial_state eq_refl eq_refl eq_refl)) as (H & _).
  rewrite H. reflexivity.
Defined.

(** X18. The timeout message always says 0 seconds: the closure of
    [onSubmit] keeps the counter of the render it was created in, which is
    0, so the seconds that pass before the timeout never reach the
    message. *)
Theorem timeout_message_says_zero
    (b : Axios.Bridge) (s : Session) (actions : list Action) (p : Pending) :
  well_formed s ->
  pending (run b s actions) = Some p ->
  alerts (instance (step b (run b s actions) (Settle (Rejected timeout_error))))
  = alerts (instance (run b s actions))
    ++ ["Comparison request timed out after 0s. The comparison is taking longer than expected. Please try again or reduce the amount of text being compared."].
Proof.
  intros Hwf Hp. pose proof (run_well_formed b actions s Hwf) as Hrun.
  destruct Hrun as (_ & _ & _ & _ & _ & _ & Hpend).
  destruct (Hpend p Hp) as (H0 & req & Hreq & Hsig).
  cbn [step]. rewrite Hp. cbn [instance].
  unfold onSubmit_settle. rewrite timer_effect_alerts.
  unfold settle, transport. rewrite Hreq, Hsig. cbn. rewrite H0. reflexivity.
Qed.

Lemma timeout_message_says_zero_witness :
  exists p,
    pending
      (run Axios.NoBridge (opened initial_state)
         [Submit {| data_sourceText := "a"; data_targetText := "b" |}; Tick; Tick; Tick])
    = Some p /\
    length
      (alerts
         (instance
            (step Axios.NoBridge
               (run Axios.NoBridge (opened initial_state)
                  [Submit {| data_sourceText := "a"; data_targetText := "b" |};
                   Tick; Tick; Tick])
               (Settle (Rejected timeout_error)))))
    = 1%nat.
Proof.
  eexists. split; [reflexivity|].
  rewrite (timeout_message_says_zero Axios.NoBridge (opened initial_state)
             [Submit {| data_sourceText := "a"; data_targetText := "b" |}; Tick; Tick; Tick]
             _ (well_formed_opened initial_state eq_refl eq_refl eq_refl) eq_refl).
  reflexivity.
Defined.

End SessionFacts.

(** ** The language of a Wikipedia URL *)

Section LanguageFacts.
Import Comparison.

Lemma strip_prefix_Some (p s r : string) :
  strip_prefix p s = Some r -> s = p +:+ r.
Proof.
  revert s. induction p as [|a p IH]; intros s; cbn [strip_prefix].
  - intros [= ->]. reflexivity.
  - destruct s as [|c s]; [discriminate|].
    destruct (Ascii.eqb_spec a c) as [->|]; [|discriminate].
    intros H. rewrite (IH s H). reflexivity.
Qed.

Lemma match_host_Some (s lang : string) :
  match_host s = Some lang ->
  exists a b post,
    lang = String a (String b EmptyString) /\
    is_lower a = true /\ is_lower b = true /\
    s = "://" +:+ lang +:+ ".wikipedia.org" +:+ post.
Proof.
  unfold match_host. destruct (strip_prefix "://" s) as [r|] eqn:Hs; [|discriminate].
  destruct r as [|a [|b rest]]; try discriminate.
  destruct (is_lower a && is_lower b) eqn:Hab; [|discriminate].
  destruct (strip_prefix ".wikipedia.org" rest) as [post|] eqn:Hr; [|discriminate].
  intros [= <-]. apply andb_true_iff in Hab as [Ha Hb].
  exists a, b, post. repeat split; try assumption.
  apply strip_prefix_Some in Hs, Hr. rewrite Hs, Hr. reflexivity.
Qed.

Lemma match_here_Some (s lang : string) :
  match_here s = Some lang ->
  exists scheme a b post,
    (scheme = "http://" \/ scheme = "https://") /\
    lang = String a (String b EmptyString) /\
    is_lower a = true /\ is_lower b = true /\
    s = scheme +:+ lang +:+ ".wikipedia.org" +:+ post.
Proof.
  unfold match_here. destruct (strip_prefix "http" s) as [r|] eqn:Hs; [|discriminate].
  apply strip_prefix_Some in Hs.
  assert (Hplain : match_host r = Some lang ->
                   exists scheme a b post,
                     (scheme = "http://" \/ scheme = "https://") /\
                     lang = String a (String b EmptyString) /\
                     is_lower a = true /\ is_lower b = true /\
                     s = scheme +:+ lang +:+ ".wikipedia.org" +:+ post).
  { intros H. destruct (match_host_Some _ _ H) as (a & b & post & Hl & Ha & Hb & Hr).
    exists "http://", a, b, post. repeat split; auto.
    rewrite Hs, Hr. reflexivity. }
  destruct r as [|c r']; [discriminate|].
  destruct (Ascii.eqb_spec c "s") as [->|]; [|exact Hplain].
  destruct (match_host r') as [lang'|] eqn:Hm; [|exact Hplain].
  intros [= <-]. destruct (match_host_Some _ _ Hm) as (a & b & post & Hl & Ha & Hb & Hr).
  exists "https://", a, b, post. repeat split; auto.
  rewrite Hs, Hr. reflexivity.
Qed.

(** X19. Whatever language [wikipedia_language] reads out of a URL is two
    lower-case letters that stand in the URL between [http://] or
    [https://] and [.wikipedia.org]. *)
Theorem wikipedia_language_sound (url lang : string) :
  wikipedia_language url = Some lang ->
  exists before scheme a b after,
    (scheme = "http://" \/ scheme = "https://") /\
    lang = String a (String b EmptyString) /\
    is_lower a = true /\ is_lower b = true /\
    url = before +:+ scheme +:+ lang +:+ ".wikipedia.org" +:+ after.
Proof.
  induction url as [|c url IH].
  - cbn. discriminate.
  - cbn [wikipedia_language].
    destruct (match_here (String c url)) as [l|] eqn:Hm.
    + intros [= <-].
      destruct (match_here_Some _ _ Hm) as (scheme & a & b & post & Hs & Hl & Ha & Hb & Hu).
      exists "", scheme, a, b, post. repeat split; auto.
    + intros H. destruct (IH H) as (before & scheme & a & b & post & Hs & Hl & Ha & Hb & Hu).
      exists (String c before), scheme, a, b, post. repeat split; auto.
      rewrite Hu. reflexivity.
Qed.

Lemma wikipedia_language_sound_witness :
  exists before scheme a b after,
    (scheme = "http://" \/ scheme = "https://") /\
    "fr" = String a (String b EmptyString) /\
    is_lower a = true /\ is_lower b = true /\
    "see https://fr.wikipedia.org/wiki/Rocq"
    = before +:+ scheme +:+ "fr" +:+ ".wikipedia.org" +:+ after.
Proof.
  apply (wikipedia_language_sound "see https://fr.wikipedia.org/wiki/Rocq" "fr").
  reflexivity.
Defined.

Lemma wikipedia_language_head (url lang : string) :
  match_here url = Some lang -> wikipedia_language url = Some lang.
Proof.
  intros H. destruct url; cbn [wikipedia_language]; rewrite H; reflexivity.
Qed.

Lemma match_host_canonical (a b : ascii) (rest : string) :
  is_lower a = true -> is_lower b = true ->
  match_host ("://" +:+ String a (String b (".wikipedia.org" +:+ rest)))
  = Some (String a (String b EmptyString)).
Proof.
  intros Ha Hb.
  change (match_host ("://" +:+ String a (String b (".wikipedia.org" +:+ rest))))
    with (if is_lower a && is_lower b
          then Some (String a (String b EmptyString)) else None).
  rewrite Ha, Hb. reflexivity.
Qed.

Lemma match_here_canonical (a b : ascii) (rest : string) :
  is_lower a = true -> is_lower b = true ->
  match_here ("https://" +:+ String a (String b (".wikipedia.org" +:+ rest)))
  = Some (String a (String b EmptyString)) /\
  match_here ("http://" +:+ String a (String b (".wikipedia.org" +:+ rest)))
  = Some (String a (String b EmptyString)).
Proof.
  intros Ha Hb. split.
  - change (match_here ("https://" +:+ String a (String b (".wikipedia.org" +:+ rest))))
      with (match match_host ("://" +:+ String a (String b (".wikipedia.org" +:+ rest))) with
            | Some lang => Some lang
            | None =>
                match_host ("s://" +:+ String a (String b (".wikipedia.org" +:+ rest)))
            end).
    rewrite (match_host_canonical a b rest Ha Hb). reflexivity.
  - change (match_here ("http://" +:+ String a (String b (".wikipedia.org" +:+ rest))))
      with (match_host ("://" +:+ String a (String b (".wikipedia.org" +:+ rest)))).
    apply match_host_canonical; assumption.
Qed.

(** X20. A successful fetch from a URL that starts with [https://] or
    [http://], two lower-case letters and [.wikipedia.org] sets the source
    language to these two letters and the source text and form field to
    the fetched article; it shows no message and ends the loading. *)
Theorem fetch_sets_language (a b : ascii) (rest text : string) (secure : bool) (i : Instance) :
  is_lower a = true -> is_lower b = true ->
  let url := (if secure then "https://" else "http://")
             +:+ String a (String b (".wikipedia.org" +:+ rest)) in
  let i' := fetchFromUrl_settle url setSourceText setSourceLanguage (FetchFulfilled text) i in
  sourceLanguage (state i') = String a (String b EmptyString) /\
  sourceText (state i') = text /\
  form_sourceText (state i') = text /\
  isLoading (state i') = false /\
  alerts i' = alerts i.
Proof.
  intros Ha Hb. cbv zeta. unfold fetchFromUrl_settle. cbn.
  destruct (match_here_canonical a b rest Ha Hb) as [Hs Hp].
  destruct secure.
  - rewrite (wikipedia_language_head _ _ Hs). repeat split.
  - rewrite (wikipedia_language_head _ _ Hp). repeat split.
Qed.

Lemma fetch_sets_language_witness :
  sourceLanguage
    (state
       (fetchFromUrl_settle "https://de.wikipedia.org/wiki/Berlin"
          setSourceText setSourceLanguage (FetchFulfilled "Berlin ist ...")
          (mounted initial_state)))
  = "de".
Proof.
  apply (fetch_sets_language "d" "e" "/wiki/Berlin" "Berlin ist ..." true
           (mounted initial_state)); reflexivity.
Defined.

End LanguageFacts.

(** ** The results section, in general *)

Section RenderFacts.
Import Comparison.

Lemma text_content_item (array : list string) (index : Z) :
  text_content (sentence_item array index) = item_text array index.
Proof.
  unfold sentence_item, item_text, sentence, child.
  destruct (at_index array index) as [t|]; reflexivity.
Qed.

Lemma item_texts (array : list string) (indices : list Z) :
  map text_content (map (sentence_item array) indices) = map (item_text array) indices.
Proof.
  induction indices as [|z l IH]; [reflexivity|].
  cbn [map]. rewrite text_content_item, IH. reflexivity.
Qed.

Lemma block_lists (label : string) (array : list string) (indices : list Z) :
  labelled_lists
    (El "div" [El "h4" [Text label]; El "ul" (map (sentence_item array) indices)])
  = [(label +:+ "", map (item_text array) indices)].
Proof.
  rewrite labelled_lists_unfold. cbn [flat_map].
  rewrite ul_has_no_lists. cbn [labelled_list String.eqb Ascii.eqb Bool.eqb andb].
  rewrite item_texts. reflexivity.
Qed.

Lemma nonempty_length {A} (x : A) (l : list A) :
  (0 <? Z.of_nat (length (x :: l))) = true /\ (Z.of_nat (length (x :: l)) =? 0) = false.
Proof. split; reflexivity. Qed.

(** X21. The lists of the results section, for every comparison result: a
    list headed Missing Information in Translation when the right index
    list is not empty, then a list headed Extra Information in Translation
    when the left one is not empty, and no other list; the item of index
    [n] reads [Sentence n+1: "text"], where the text is the sentence at
    [n], or nothing when [n] is outside the array. *)
Theorem results_lists (r : ComparisonResult) :
  labelled_lists_of (render_results (Some r))
  = match right_article_extra_info_index r with
    | [] => []
    | _ => [("Missing Information in Translation",
             map (item_text (right_article_array r)) (right_article_extra_info_index r))]
    end
    ++ match left_article_missing_info_index r with
       | [] => []
       | _ => [("Extra Information in Translation",
                map (item_text (left_article_array r)) (left_article_missing_info_index r))]
       end.
Proof.
  destruct r as [la ra li ri]. unfold labelled_lists_of, render_results.
  cbn [left_article_array right_article_array left_article_missing_info_index
         right_article_extra_info_index].
  destruct ri as [|x ri], li as [|y li].
  - reflexivity.
  - destruct (nonempty_length y li) as [H1 H2]. rewrite H1, H2.
    change (0 <? Z.of_nat (length (@nil Z))) with false.
    change (Z.of_nat (length (@nil Z)) =? 0) with true.
    cbn [when andb app flat_map].
    rewrite labelled_lists_unfold. cbn [flat_map].
    rewrite (labelled_lists_unfold "div"). cbn [flat_map].
    rewrite block_lists. reflexivity.
  - destruct (nonempty_length x ri) as [H1 H2]. rewrite H1, H2.
    change (0 <? Z.of_nat (length (@nil Z))) with false.
    cbn [when andb app flat_map].
    rewrite labelled_lists_unfold. cbn [flat_map].
    rewrite (labelled_lists_unfold "div"). cbn [flat_map].
    rewrite block_lists. reflexivity.
  - destruct (nonempty_length x ri) as [H1 H2]. rewrite H1, H2.
    destruct (nonempty_length y li) as [H3 H4]. rewrite H3.
    cbn [when andb app flat_map].
    rewrite labelled_lists_unfold. cbn [flat_map].
    rewrite (labelled_lists_unfold "div"). cbn [flat_map].
    rewrite !block_lists. reflexivity.
Qed.

Lemma elements_by_tag_unfold (tag t : string) (children : list Element) :
  elements_by_tag tag (El t children)
  = (if String.eqb t tag then [El t children] else [])
    ++ flat_map (elements_by_tag tag) children.
Proof. reflexivity. Qed.

Lemma items_by_tag (tag : string) (array : list string) (indices : list Z) :
  flat_map (elements_by_tag tag) (map (sentence_item array) indices)
  = if String.eqb "li" tag then map (sentence_item array) indices else [].
Proof.
  induction indices as [|z l IH].
  - destruct (String.eqb "li" tag); reflexivity.
  - cbn [map flat_map]. rewrite IH.
    unfold sentence_item at 1. rewrite elements_by_tag_unfold.
    assert (Hc : flat_map (elements_by_tag tag)
                   ([Text "Sentence "; Text (Number_toString (z + 1)); Text (": " +:+ dquote)]
                    ++ child (at_index array z) ++ [Text dquote]) = []).
    { unfold child. destruct (at_index array z); reflexivity. }
    rewrite Hc, app_nil_r. destruct (String.eqb "li" tag); reflexivity.
Qed.

(** X22. The results section has one list item per index of the two index
    lists, shows the no-differences message exactly when both lists are
    empty, and is absent while there is no comparison result. *)
Theorem results_items_and_message (r : ComparisonResult) :
  length (list_items_of (render_results (Some r)))
  = (length (right_article_extra_info_index r)
     + length (left_article_missing_info_index r))%nat /\
  shows_no_differences (render_results (Some r))
  = match right_article_extra_info_index r, left_article_missing_info_index r with
    | [], [] => true
    | _, _ => false
    end /\
  render_results None = [].
Proof.
  destruct r as [la ra li ri]. unfold list_items_of, shows_no_differences, render_results.
  cbn [left_article_array right_article_array left_article_missing_info_index
         right_article_extra_info_index].
  destruct ri as [|x ri], li as [|y li].
  - repeat split.
  - destruct (nonempty_length y li) as [H1 H2]. rewrite H1, H2.
    change (0 <? Z.of_nat (length (@nil Z))) with false.
    change (Z.of_nat (length (@nil Z)) =? 0) with true.
    cbn [when andb app flat_map].
    rewrite !elements_by_tag_unfold. cbn [flat_map].
    rewrite !elements_by_tag_unfold. cbn [flat_map].
    rewrite !elements_by_tag_unfold. cbn [flat_map].
    rewrite !elements_by_tag_unfold. cbn [flat_map].
    rewrite !items_by_tag.
    repeat split. cbn. rewrite !app_nil_r, List.length_map. reflexivity.
  - destruct (nonempty_length x ri) as [H1 H2]. rewrite H1, H2.
    change (0 <? Z.of_nat (length (@nil Z))) with false.
    cbn [when andb app flat_map].
    rewrite !elements_by_tag_unfold. cbn [flat_map].
    rewrite !elements_by_tag_unfold. cbn [flat_map].
    rewrite !elements_by_tag_unfold. cbn [flat_map].
    rewrite !elements_by_tag_unfold. cbn [flat_map].
    rewrite !items_by_tag.
    repeat split. cbn. rewrite !app_nil_r, ?List.length_app, ?List.length_map. cbn.
    rewrite ?List.length_map. lia.
  - destruct (nonempty_length x ri) as [H1 H2]. rewrite H1, H2.
    destruct (nonempty_length y li) as [H3 H4]. rewrite H3.
    cbn [when andb app flat_map].
    rewrite !elements_by_tag_unfold. cbn [flat_map].
    rewrite !elements_by_tag_unfold. cbn [flat_map].
    rewrite !elements_by_tag_unfold. cbn [flat_map].
    rewrite !elements_by_tag_unfold. cbn [flat_map].
    rewrite !items_by_tag.
    repeat split. cbn. rewrite !app_nil_r, ?List.length_app, ?List.length_map. cbn.
    rewrite ?List.length_map. lia.
Qed.

End RenderFacts.

(** ** The cross-page handoff, continued *)

Section MoreHandoffFacts.
Import Browser Home Translation.
Context `{Platform}.

Lemma load_invalid_url (h : Handoff.t) (st : Comparison.State) :
  Config.truthy_string (Handoff.sourceUrl h) = true ->
  Config.truthy_string (Handoff.targetLanguage h) = true ->
  URL_new (Handoff.sourceUrl h) = None ->
  Comparison.load h st = Throw "Invalid URL".
Proof.
  intros Hu Ht Hn. unfold Comparison.load. rewrite Hu, Ht, Hn. reflexivity.
Qed.

Lemma mount_throwing (w : Browser.t) (h : Handoff.t) (e : string) :
  sessionStorage w !! "comparisonData" = Some h ->
  Comparison.load h Comparison.initial_state = Throw e ->
  Comparison.mount w = (Throw e, emit (GetItem "comparisonData") w).
Proof.
  intros Hw Hl. unfold Comparison.mount, Comparison.mount_effect, getItem.
  rewrite Hw. cbn [Comparison.mounted Comparison.state]. rewrite Hl. reflexivity.
Qed.

(** X23. When [new URL] rejects the source URL of the handoff (and the
    target language is not empty), entering the comparison view throws out
    of its effect before [removeItem], whether or not [handleCompare] found
    a button to click: no view is mounted, the error is uncaught, the
    storage is read once and not written, and the handoff stays in the
    session storage. *)
Theorem invalid_url_keeps_handoff
    (form : TranslationFormType) (found : bool) (w : Browser.t) :
  Config.truthy_string (sourceArticleUrl form) = true ->
  Config.truthy_string (targetArticleLanguage form) = true ->
  URL_new (sourceArticleUrl form) = None ->
  let a1 := handleCompare form found (translation_page w) in
  let a2 := navigate AI_COMPARISON (commit a1) in
  comparisonSection a2 = None /\
  uncaught a2 = Some "Invalid URL" /\
  sessionStorage (browser a2) !! "comparisonData" = Some (handoff_of form) /\
  trace (browser a2) = trace (browser a1) ++ [GetItem "comparisonData"].
Proof.
  intros Hu Ht Hn. cbv zeta.
  pose proof (load_invalid_url (handoff_of form) Comparison.initial_state Hu Ht Hn) as Hl.
  destruct (handleCompare_browser form found (translation_page w))
    as (Hs & _ & Hp & Hc & Hq).
  assert (Hw : sessionStorage (browser (handleCompare form found (translation_page w)))
               !! "comparisonData" = Some (handoff_of form))
    by (rewrite Hs; apply lookup_insert_eq).
  assert (Hq' : pending_phase (handleCompare form found (translation_page w)) = None \/
                pending_phase (handleCompare form found (translation_page w))
                = Some AI_COMPARISON)
    by (rewrite Hq; destruct found; [right|left]; reflexivity).
  assert (Hun : uncaught (handleCompare form found (translation_page w)) = None)
    by (destruct found; reflexivity).
  rewrite (enter_comparison _ Hun Hp Hq'), (mount_throwing _ _ _ Hw Hl).
  cbn [comparisonSection uncaught browser emit sessionStorage trace].
  repeat split. exact Hw.
Qed.

(** X24. What a handoff does to the target fields: they become read-only
    exactly when the handoff carries a source URL; without one the
    languages and the target URL keep their initial values; with one the
    source language is the language of the URL, or [en]. *)
Theorem handoff_locks_target_fields (h : Handoff.t) (st' : Comparison.State) :
  Comparison.load h Comparison.initial_state = Normal st' ->
  Comparison.isTargetTextReadOnly st' = Config.truthy_string (Handoff.sourceUrl h) /\
  Comparison.isTargetLanguageReadOnly st' = Config.truthy_string (Handoff.sourceUrl h) /\
  (Handoff.sourceUrl h = "" ->
   Comparison.sourceLanguage st' = "en" /\ Comparison.targetLanguage st' = "en" /\
   Comparison.targetUrl st' = "") /\
  (Handoff.sourceUrl h <> "" ->
   Comparison.sourceLanguage st'
   = default "en" (Comparison.wikipedia_language (Handoff.sourceUrl h))).
Proof.
  unfold Comparison.load.
  destruct (Config.truthy_string (Handoff.sourceUrl h)) eqn:Hu; cbn.
  - apply truthy_string_true in Hu.
    destruct (Config.truthy_string (Handoff.targetLanguage h)); cbn.
    + destruct (URL_new (Handoff.sourceUrl h)); cbn; [|discriminate].
      intros [= <-]. cbn. repeat split; try reflexivity; intros; contradiction.
    + intros [= <-]. cbn. repeat split; try reflexivity; intros; contradiction.
  - apply truthy_string_false in Hu.
    intros [= <-]. cbn. repeat split; try reflexivity; intros; contradiction.
Qed.

(** X25. [handleCompare] overwrites: after two calls the storage holds the
    handoff of the second form, and no other key of the storage is
    touched. *)
Theorem handleCompare_last_write_wins
    (form1 form2 : TranslationFormType) (found1 found2 : bool) (a : App) (key : string) :
  key <> "comparisonData" ->
  let a' := handleCompare form2 found2 (handleCompare form1 found1 a) in
  sessionStorage (browser a') !! "comparisonData" = Some (handoff_of form2) /\
  sessionStorage (browser a') !! key = sessionStorage (browser a) !! key.
Proof.
  intros Hk. cbv zeta.
  destruct (handleCompare_browser form2 found2 (handleCompare form1 found1 a)) as (H2 & _).
  destruct (handleCompare_browser form1 found1 a) as (H1 & _).
  rewrite H2, H1. split.
  - apply lookup_insert_eq.
  - rewrite !lookup_insert_ne by congruence. reflexivity.
Qed.

End MoreHandoffFacts.

Lemma invalid_url_keeps_handoff_witness :
  Browser.sessionStorage
    (Home.browser
       (@Home.navigate ExamplePlatform.platform Home.AI_COMPARISON
          (@Home.commit ExamplePlatform.platform
             (Translation.handleCompare
                {| Translation.sourceArticleUrl := "Alan Turing";
                   Translation.targetArticleLanguage := "French";
                   Translation.sourceArticleContent := "text";
                   Translation.translatedArticleContent := "texte" |}
                false (Translation.translation_page Translation.empty_browser)))))
  !! "comparisonData"
  = Some (Translation.handoff_of
            {| Translation.sourceArticleUrl := "Alan Turing";
               Translation.targetArticleLanguage := "French";
               Translation.sourceArticleContent := "text";
               Translation.translatedArticleContent := "texte" |}).
Proof.
  apply (@invalid_url_keeps_handoff ExamplePlatform.platform
           {| Translation.sourceArticleUrl := "Alan Turing";
              Translation.targetArticleLanguage := "French";
              Translation.sourceArticleContent := "text";
              Translation.translatedArticleContent := "texte" |}
           false Translation.empty_browser); reflexivity.
Defined.

Lemma handoff_locks_target_fields_witness :
  exists st',
    @Comparison.load ExamplePlatform.platform
      (Translation.handoff_of Translation.sample_form) Comparison.initial_state
    = Normal st' /\
    Comparison.isTargetTextReadOnly st' = true.
Proof.
  eexists. split; [reflexivity|].
  apply (@handoff_locks_target_fields ExamplePlatform.platform
           (Translation.handoff_of Translation.sample_form) _ eq_refl).
Defined.

Lemma handleCompare_last_write_wins_witness :
  Browser.sessionStorage
    (Home.browser
       (Translation.handleCompare Translation.sample_form true
          (Translation.handleCompare
             {| Translation.sourceArticleUrl := "";
                Translation.targetArticleLanguage := "English";
                Translation.sourceArticleContent := "old";
                Translation.translatedArticleContent := "old" |}
             false (Translation.translation_page Translation.empty_browser))))
  !! "comparisonData"
  = Some (Translation.handoff_of Translation.sample_form).
Proof.
  apply (handleCompare_last_write_wins
           {| Translation.sourceArticleUrl := "";
              Translation.targetArticleLanguage := "English";
              Translation.sourceArticleContent := "old";
              Translation.translatedArticleContent := "old" |}
           Translation.sample_form false true
           (Translation.translation_page Translation.empty_browser) "other").
  discriminate.
Defined.

(** ** The title sent for translation *)

Section TitleFacts.
Import Translation.

Lemma last_segment_cons (c : ascii) (rest : string) :
  last_segment (String c rest)
  = if (Uri.count_char "/" rest =? 0)%nat
    then (if Ascii.eqb c "/" then rest else String c rest)
    else last_segment rest.
Proof. reflexivity. Qed.

Lemma last_segment_has_no_slash (s : string) :
  Uri.count_char "/" (last_segment s) = O.
Proof.
  induction s as [|c rest IH]; [reflexivity|].
  rewrite last_segment_cons.
  destruct (Nat.eqb_spec (Uri.count_char "/" rest) 0) as [E|E]; [|exact IH].
  destruct (Ascii.eqb c "/") eqn:Hc; [exact E|].
  cbn [Uri.count_char]. rewrite Hc, E. reflexivity.
Qed.

Lemma last_segment_is_suffix (s : string) :
  exists before,
    s = before +:+ last_segment s /\
    (before = "" \/ exists before', before = before' +:+ "/").
Proof.
  induction s as [|c rest IH].
  - exists "". split; [reflexivity | left; reflexivity].
  - rewrite last_segment_cons.
    destruct (Nat.eqb_spec (Uri.count_char "/" rest) 0) as [E|E].
    + destruct (Ascii.eqb_spec c "/") as [->|Hc].
      * exists "/". split; [reflexivity | right; exists ""; reflexivity].
      * exists "". split; [reflexivity | left; reflexivity].
    + destruct IH as (before & Hs & [->|(before' & ->)]).
      * exfalso. apply E. change ("" +:+ last_segment rest) with (last_segment rest) in Hs.
        rewrite Hs. apply last_segment_has_no_slash.
      * exists (String c (before' +:+ "/")). split.
        -- change (String c rest = String c ((before' +:+ "/") +:+ last_segment rest)).
           rewrite <- Hs. reflexivity.
        -- right. exists (String c before'). reflexivity.
Qed.

(** X26. The title that [onLanguageChange] sends is the part of the path
    after its last [/], which holds no [/] itself; when that part is empty
    (the path ends with [/], or is empty) the whole source URL is sent
    instead. *)
Theorem title_is_last_path_segment (pathname sourceUrl : string) :
  (exists before,
     pathname = before +:+ last_segment pathname /\
     (before = "" \/ exists before', before = before' +:+ "/")) /\
  Uri.count_char "/" (last_segment pathname) = O /\
  title_of pathname sourceUrl
  = (if String.eqb (last_segment pathname) "" then sourceUrl else last_segment pathname) /\
  title_of (pathname +:+ "/") sourceUrl = sourceUrl.
Proof.
  split; [apply last_segment_is_suffix|]. split; [apply last_segment_has_no_slash|].
  split.
  - unfold title_of, Comparison.or_text, Config.or_default, Config.truthy_string.
    destruct (String.eqb (last_segment pathname) ""); reflexivity.
  - assert (Hl : last_segment (pathname +:+ "/") = "").
    { induction pathname as [|c rest IH]; [reflexivity|].
      change (String c rest +:+ "/") with (String c (rest +:+ "/")).
      rewrite last_segment_cons, count_char_append. cbn [Uri.count_char].
      change (Ascii.eqb "/" "/") with true. cbn iota.
      rewrite Nat.add_comm. cbn [Nat.add Nat.eqb]. exact IH. }
    unfold title_of. rewrite Hl. reflexivity.
Qed.

End TitleFacts.

(** ** What a submission sends *)

Section SubmissionFacts.
Import Comparison.

(** X27. A submission posts the two texts of the form, the two languages the
    view holds at that moment and the model name [default] to the compare
    endpoint, on the client that [getAxiosInstance] returns, with neither a
    query string nor an abort signal; while a request is in flight the
    button does nothing. *)
Theorem submit_sends_current_languages
    (b : Axios.Bridge) (s : Session) (d : FormData) :
  well_formed s ->
  if isLoading (state (instance s)) then step b s (Submit d) = s
  else
    exists p c,
      pending (step b s (Submit d)) = Some p /\
      Axios.getAxiosInstance b = Normal c /\
      request p
      = Normal {| Services.client := c; Services.method := Services.POST;
                  Services.path := "/symmetry/v1/articles/compare";
                  Services.query := None;
                  Services.body :=
                    Some {| Services.article_text_blob_1 := data_sourceText d;
                            Services.article_text_blob_2 := data_targetText d;
                            Services.article_text_blob_1_language :=
                              sourceLanguage (state (instance s));
                            Services.article_text_blob_2_language :=
                              targetLanguage (state (instance s));
                            Services.model_name := "default" |};
                  Services.signal := None |}.
Proof.
  intros (_ & Hlast & _). cbn [step]. unfold click_submit.
  destruct (isLoading (state (instance s))); [reflexivity|].
  unfold onSubmit_begin. rewrite Hlast. cbn [mbind option_bind].
  destruct (getAxiosInstance_total b) as (c & Hc & _).
  eexists. exists c. cbn [pending]. split; [reflexivity|]. split; [exact Hc|].
  cbn [request captured]. unfold Services.compareArticles. rewrite Hc. reflexivity.
Qed.

Lemma submit_sends_current_languages_witness :
  exists p c,
    pending
      (step Axios.NoBridge
         (run Axios.NoBridge (opened initial_state)
            [Fetch "https://de.wikipedia.org/wiki/Berlin"; FetchSettle (FetchFulfilled "Berlin")])
         (Submit {| data_sourceText := "Berlin"; data_targetText := "Berlin" |}))
    = Some p /\
    Axios.getAxiosInstance Axios.NoBridge = Normal c /\
    request p
    = Normal {| Services.client := c; Services.method := Services.POST;
                Services.path := "/symmetry/v1/articles/compare";
                Services.query := None;
                Services.body :=
                  Some {| Services.article_text_blob_1 := "Berlin";
                          Services.article_text_blob_2 := "Berlin";
                          Services.article_text_blob_1_language := "de";
                          Services.article_text_blob_2_language := "en";
                          Services.model_name := "default" |};
                Services.signal := None |}.
Proof.
  apply (submit_sends_current_languages Axios.NoBridge
           (run Axios.NoBridge (opened initial_state)
              [Fetch "https://de.wikipedia.org/wiki/Berlin";
               FetchSettle (FetchFulfilled "Berlin")])
           {| data_sourceText := "Berlin"; data_targetText := "Berlin" |}).
  apply run_well_formed, well_formed_opened; reflexivity.
Defined.

End SubmissionFacts.
